(** * Black-box log parser: classification and duration tracking

    A shallow embedding of the analysis engine of [bb_parser.py]:
    - [search_for_log_msg_errors]: the line scan with its finalization,
    - [search_for_prox_reading_errors]: the single pass over sensor rows,
    - [search_for_stationary_errors]: the subsampled pass over pose rows,
    - the per-run merge and the cross-run rollup of [process_bb_files],
    - [get_drop_threshold], [get_log_build_version],
      [crop_image_to_interest], [search_for_any_errors_alerts] and
      [event_search].

    Modelling choices.
    - Python dictionaries are finite maps ([gmap]); a [defaultdict(int)]
      is a finite map read with default [0], and the key a read leaves
      behind is written out where later code can see it.  Results that
      depend on the order of a dictionary are not stated.
    - Exceptions are explicit: every function that can raise returns a
      [result], and an exception ends the computation as it ends the
      script (only [UnicodeDecodeError] is ever caught).
    - File contents are handed in as already-read sequences (lines, CSV
      rows); printing, plotting and file writing are left out.  The
      summary is always saved ([save_summary], the default of the script).
    - Text is ASCII.  [int] is modelled in full on such text; [float] is a
      parameter of the development, and Python floats are idealised as
      exact rationals ([Q]): rounding, infinities and NaN are outside the
      model.
    - The JSON document with the rules is not part of the sources: it is
      the [config] argument of every function, and the configurations of
      the examples are stand-ins. *)

From Stdlib Require Import ZArith QArith String Ascii List Lia.
From stdpp Require Import gmap strings list fin_maps.

Local Open Scope string_scope.
Local Open Scope Z_scope.

(** ** Exceptions *)

Inductive exn : Type :=
| ValueError
| IndexError
| KeyError
| TypeError
| ZeroDivisionError.

Inductive result (A : Type) : Type :=
| Return (a : A)
| Raise (e : exn).

Arguments Return {A} a.
Arguments Raise {A} e.

#[global] Instance result_bind : MBind result := fun A B k m =>
  match m with
  | Return a => k a
  | Raise e => Raise e
  end.

Definition raises {A : Type} (m : result A) : Prop := exists e, m = Raise e.

Definition of_option {A : Type} (e : exn) (o : option A) : result A :=
  match o with
  | Some a => Return a
  | None => Raise e
  end.

(** [for x in l: st = body(st, x)] with exceptions propagating. *)
Fixpoint for_each {A S : Type} (body : S -> A -> result S) (l : list A) (st : S)
  : result S :=
  match l with
  | [] => Return st
  | x :: l' => st' ← body st x; for_each body l' st'
  end.

(** ** Strings: the [str] methods the parser uses *)

(** [sub in s] *)
Fixpoint contains (sub s : string) : bool :=
  String.prefix sub s ||
  match s with
  | EmptyString => false
  | String _ s' => contains sub s'
  end.

(** [s.split(sep)] for a one-character separator: never the empty list. *)
Fixpoint str_split (sep : ascii) (s : string) : list string :=
  match s with
  | EmptyString => [EmptyString]
  | String c s' =>
      if Ascii.eqb c sep then EmptyString :: str_split sep s'
      else match str_split sep s' with
           | h :: t => String c h :: t
           | [] => [String c EmptyString]
           end
  end.

(** [s.replace(c, r)] for a one-character [c]. *)
Fixpoint str_replace (c : ascii) (r : string) (s : string) : string :=
  match s with
  | EmptyString => EmptyString
  | String a s' =>
      if Ascii.eqb a c then r +:+ str_replace c r s' else String a (str_replace c r s')
  end.

(** ASCII white space as [str.strip] sees it. *)
Definition is_space (c : ascii) : bool :=
  let n := nat_of_ascii c in
  ((9 <=? n)%nat && (n <=? 13)%nat) || ((28 <=? n)%nat && (n <=? 32)%nat).

Fixpoint lstrip (s : string) : string :=
  match s with
  | EmptyString => EmptyString
  | String c s' => if is_space c then lstrip s' else s
  end.

Fixpoint rstrip (s : string) : string :=
  match s with
  | EmptyString => EmptyString
  | String c s' =>
      match rstrip s' with
      | EmptyString => if is_space c then EmptyString else String c EmptyString
      | r => String c r
      end
  end.

Definition strip (s : string) : string := rstrip (lstrip s).

Fixpoint drop_chars (n : nat) (s : string) : string :=
  match n, s with
  | O, _ => s
  | S n', String _ s' => drop_chars n' s'
  | S _, EmptyString => EmptyString
  end.

(** [s[s.rindex(sub) + len(sub):]]; [None] where [rindex] raises. *)
Fixpoint after_last (sub s : string) : option string :=
  let here :=
    if String.prefix sub s then Some (drop_chars (String.length sub) s) else None in
  match s with
  | EmptyString => here
  | String _ s' =>
      match after_last sub s' with
      | Some r => Some r
      | None => here
      end
  end.

(** The one-character strings a [for] loop over a [str] yields. *)
Fixpoint chars (s : string) : list string :=
  match s with
  | EmptyString => []
  | String c s' => String c EmptyString :: chars s'
  end.

(** [int(s)] in base 10 on ASCII text: surrounding white space, one
    optional sign, digits with single underscores between them.  The
    white space [int] skips on such text is tab to carriage return and
    the space; the separators 0x1C-0x1F, which [str.strip] removes, make
    [int] raise. *)
Definition is_int_space (c : ascii) : bool :=
  let n := nat_of_ascii c in
  ((9 <=? n)%nat && (n <=? 13)%nat) || (n =? 32)%nat.

Fixpoint int_lstrip (s : string) : string :=
  match s with
  | EmptyString => EmptyString
  | String c s' => if is_int_space c then int_lstrip s' else s
  end.

Fixpoint int_rstrip (s : string) : string :=
  match s with
  | EmptyString => EmptyString
  | String c s' =>
      match int_rstrip s' with
      | EmptyString => if is_int_space c then EmptyString else String c EmptyString
      | r => String c r
      end
  end.

Definition digit_of (c : ascii) : option Z :=
  let n := nat_of_ascii c in
  if (48 <=? n)%nat && (n <=? 57)%nat then Some (Z.of_nat (n - 48)) else None.

Fixpoint int_digits (acc : Z) (prev_digit : bool) (s : string) : option Z :=
  match s with
  | EmptyString => if prev_digit then Some acc else None
  | String c s' =>
      match digit_of c with
      | Some d => int_digits (10 * acc + d) true s'
      | None =>
          if Ascii.eqb c "_"%char && prev_digit then int_digits acc false s'
          else None
      end
  end.

Definition py_int (s : string) : option Z :=
  match int_rstrip (int_lstrip s) with
  | String "-" ds => Z.opp <$> int_digits 0 false ds
  | String "+" ds => int_digits 0 false ds
  | ds => int_digits 0 false ds
  end.

(** [hex(n)] for [n >= 0]: lower-case digits after the prefix. *)
Definition hex_digit (d : N) : ascii :=
  ascii_of_N (if (d <? 10)%N then 48 + d else 87 + d).

Fixpoint hex_digits (fuel : nat) (n : N) (acc : string) : string :=
  match fuel with
  | O => acc
  | S fuel' =>
      let acc' := String (hex_digit (n mod 16)) acc in
      if (n / 16 =? 0)%N then acc' else hex_digits fuel' (n / 16) acc'
  end.

Definition hex (n : Z) : string :=
  "0x" +:+ hex_digits (S (N.to_nat (N.log2 (Z.to_N n)))) (Z.to_N n) EmptyString.

(** ** Values stored in [error_count] *)

Inductive value : Type :=
| VInt (z : Z)
| VFloat (q : Q)
| VBool (b : bool).

Definition Z_of_bool (b : bool) : Z := if b then 1 else 0.

Definition to_Q (v : value) : Q :=
  match v with
  | VInt z => inject_Z z
  | VFloat q => q
  | VBool b => inject_Z (Z_of_bool b)
  end.

(** [a + b] and [a - b]: a [bool] counts as an [int], a [float] operand
    makes the result a [float]. *)
Definition py_add (a b : value) : value :=
  match a, b with
  | VFloat x, _ => VFloat (x + to_Q b)
  | _, VFloat y => VFloat (to_Q a + y)
  | VInt x, VInt y => VInt (x + y)
  | VInt x, VBool y => VInt (x + Z_of_bool y)
  | VBool x, VInt y => VInt (Z_of_bool x + y)
  | VBool x, VBool y => VInt (Z_of_bool x + Z_of_bool y)
  end.

Definition py_sub (a b : value) : value :=
  match a, b with
  | VFloat x, _ => VFloat (x - to_Q b)
  | _, VFloat y => VFloat (to_Q a - y)
  | VInt x, VInt y => VInt (x - y)
  | VInt x, VBool y => VInt (x - Z_of_bool y)
  | VBool x, VInt y => VInt (Z_of_bool x - y)
  | VBool x, VBool y => VInt (Z_of_bool x - Z_of_bool y)
  end.

(** [int(x)] for a float [x]: truncation towards zero. *)
Definition int_of_float (q : Q) : Z := Z.quot (Qnum q) (Z.pos (Qden q)).

(** [v >= 1] and [v == 0] *)
Definition ge_one (v : value) : bool := Qle_bool 1 (to_Q v).
Definition eq_zero (v : value) : bool := Qeq_bool (to_Q v) 0.

(** [d[k]] on a [defaultdict(int)] (the key it may insert is written out
    where the code depends on it), and [d[k] += 1]. *)
Definition get (d : gmap string value) (k : string) : value :=
  default (VInt 0) (d !! k).

Definition incr (d : gmap string value) (k : string) : gmap string value :=
  <[k := py_add (get d k) (VInt 1)]> d.


(** ** Configuration: the parsed JSON document and the class constants *)

(** The first component of a [LOG_MSGS_ERRORS] entry: one substring, or
    a list of substrings for the composite cancel rule. *)
Inductive error_desc : Type :=
| Pattern (d : string)
| Patterns (ds : list string).

(** JSON objects are kept as lists of pairs in document order. *)
Record config : Type := {
  LOG_MSGS_ERRORS : list (string * error_desc);
  AUTONOMY_CSV_HEADER : list string;
  AUTONOMY_COLUMN_ADDITIONS : list (string * list string);
  AUTONOMY_SUSPENDED_STATES : list string;
  AUTONOMY_TRANSITIONS : list (string * (string * string));
  TOF_ERROR_CODES : gmap string (string * string);
  PROX_ERROR_FIELDS_OF_INTEREST : list (string * list string);
  POSE_ERROR_FIELDS_OF_INTEREST : list (string * list string)
}.

Definition LOGGING_FREQUENCY : Z := 10.
Definition LOG_MSGS_START_INDICATOR : string := "Start MAPPING".
Definition PROX_READING_TIMESTAMP_FIELD : string := "TimeInMS".
(** [1.5 * LOGGING_FREQUENCY] *)
Definition LOGGING_GAP_ERROR_THRESHOLD : Q := (15 # 10) * inject_Z LOGGING_FREQUENCY.
Definition STALE_TOF_READING_THRESHOLD : Z := 100 * LOGGING_FREQUENCY.
Definition READING_SUBSAMPLE_TIME : Z := 500.
Definition READING_SUBSAMPLE_ITERS : Z := READING_SUBSAMPLE_TIME / LOGGING_FREQUENCY.
Definition STATIONARY_POSE_THRESHOLD : Q := inject_Z 30.
Definition STATIONARY_TIME_THRESHOLD : Z := 5000.
Definition STATIONARY_TIME_ITERS_THRESHOLD : Z :=
  STATIONARY_TIME_THRESHOLD / READING_SUBSAMPLE_TIME.

(** ** The line scan: [search_for_log_msg_errors] *)

Record scan_state : Type := {
  error_count : gmap string value;
  raised_errors : gmap string Z;
  cleaning_started : bool;
  nav_falling_timestamps : list Z;
  base_reconnected_timestamp : Z;
  last_robot_state_transition : string
}.

Definition with_error_count (ec : gmap string value) (st : scan_state) : scan_state :=
  {| error_count := ec;
     raised_errors := raised_errors st;
     cleaning_started := cleaning_started st;
     nav_falling_timestamps := nav_falling_timestamps st;
     base_reconnected_timestamp := base_reconnected_timestamp st;
     last_robot_state_transition := last_robot_state_transition st |}.

Definition with_raised_errors (re : gmap string Z) (st : scan_state) : scan_state :=
  {| error_count := error_count st;
     raised_errors := re;
     cleaning_started := cleaning_started st;
     nav_falling_timestamps := nav_falling_timestamps st;
     base_reconnected_timestamp := base_reconnected_timestamp st;
     last_robot_state_transition := last_robot_state_transition st |}.

Definition with_cleaning_started (b : bool) (st : scan_state) : scan_state :=
  {| error_count := error_count st;
     raised_errors := raised_errors st;
     cleaning_started := b;
     nav_falling_timestamps := nav_falling_timestamps st;
     base_reconnected_timestamp := base_reconnected_timestamp st;
     last_robot_state_transition := last_robot_state_transition st |}.

Definition with_nav_falling_timestamps (l : list Z) (st : scan_state) : scan_state :=
  {| error_count := error_count st;
     raised_errors := raised_errors st;
     cleaning_started := cleaning_started st;
     nav_falling_timestamps := l;
     base_reconnected_timestamp := base_reconnected_timestamp st;
     last_robot_state_transition := last_robot_state_transition st |}.

Definition with_base_reconnected_timestamp (t : Z) (st : scan_state) : scan_state :=
  {| error_count := error_count st;
     raised_errors := raised_errors st;
     cleaning_started := cleaning_started st;
     nav_falling_timestamps := nav_falling_timestamps st;
     base_reconnected_timestamp := t;
     last_robot_state_transition := last_robot_state_transition st |}.

Definition with_last_robot_state_transition (s : string) (st : scan_state) : scan_state :=
  {| error_count := error_count st;
     raised_errors := raised_errors st;
     cleaning_started := cleaning_started st;
     nav_falling_timestamps := nav_falling_timestamps st;
     base_reconnected_timestamp := base_reconnected_timestamp st;
     last_robot_state_transition := s |}.

(** The locals of [search_for_log_msg_errors] before the first line. *)
Definition scan_init (ec : gmap string value) : scan_state :=
  {| error_count := ec;
     raised_errors := ∅;
     cleaning_started := false;
     nav_falling_timestamps := [];
     base_reconnected_timestamp := 0;
     last_robot_state_transition := "DEFAULT_STATE" |}.

(** [line.split(' ')[-1].strip()] *)
Definition trailing_token (line : string) : string :=
  strip (List.last (str_split " " line) EmptyString).

(** [line.split(' ')[4].replace('(','').replace(')','')] *)
Definition timestamp_token (line : string) : result string :=
  tok ← of_option IndexError (str_split " " line !! 4%nat);
  Return (str_replace ")" EmptyString (str_replace "(" EmptyString tok)).

(** The patterns the cancel rule loops over: the list itself, or the
    characters of the string when the configuration gives a string. *)
Definition cancel_descs (d : error_desc) : list string :=
  match d with
  | Patterns ds => ds
  | Pattern s => chars s
  end.

Definition count_if_in (line error_code : string) (st : scan_state) (desc : string)
  : scan_state :=
  if contains desc line
  then with_error_count (incr (error_count st) error_code) st
  else st.

Definition reset_states (states : list string) (ec : gmap string value)
  : gmap string value :=
  fold_left (fun ec state => <[state := VInt 0]> ec) states ec.

Section LineScan.

(** [float(s)]: the builtin is a parameter; [None] stands for ValueError. *)
Variable py_float : string -> option Q.

(** The body of [for error_code, (error_desc, _) in LOG_MSGS_ERRORS.items()]. *)
Definition log_msg_rule (cfg : config) (line : string) (st : scan_state)
    (rule : string * error_desc) : result scan_state :=
  let '(error_code, desc) := rule in
  let st :=
    if contains "new state = " line
    then with_last_robot_state_transition (str_replace "=" "," line) st
    else st in
  if String.eqb error_code "CANCEL_CLEANING_RUN" then
    Return (fold_left (count_if_in line error_code) (cancel_descs desc) st)
  else
    match desc with
    | Patterns _ => Raise TypeError
    | Pattern d =>
        if contains d line then
          let st := with_error_count (incr (error_count st) error_code) st in
          if String.eqb error_code "SUSPENDED_AUTONOMY_STATES_RESET" then
            Return (with_error_count
                      (reset_states (AUTONOMY_SUSPENDED_STATES cfg) (error_count st)) st)
          else if String.eqb error_code "ERROR_RAISED" then
            rest ← of_option ValueError (after_last d line);
            let raised_error := strip rest in
            Return (with_raised_errors
                      (<[raised_error := default 0 (raised_errors st !! raised_error) + 1]>
                         (raised_errors st)) st)
          else if String.eqb error_code "TOTAL_CLEANING_TIME" then
            t ← of_option ValueError (py_float (trailing_token line));
            Return (with_cleaning_started true
                      (with_error_count (<[error_code := VFloat t]> (error_count st)) st))
          else if String.eqb error_code "AUTONOMOUS_DOCK" then
            Return (with_error_count
                      (<[error_code := VBool (String.eqb (trailing_token line) "true")]>
                         (error_count st)) st)
          else if String.eqb error_code "TOTAL_PAUSED_TIME" then
            t ← of_option ValueError (py_float (trailing_token line));
            Return (with_error_count (<[error_code := VFloat t]> (error_count st)) st)
          else if String.eqb error_code "NAVIGATION_FALLING" then
            tok ← timestamp_token line;
            t ← of_option ValueError (py_int tok);
            Return (with_nav_falling_timestamps (nav_falling_timestamps st ++ [t]) st)
          else if String.eqb error_code "AVG_EXT_VOLTAGE_AFTER_RECONNECT" then
            tok ← timestamp_token line;
            t ← of_option ValueError (py_int tok);
            Return (with_base_reconnected_timestamp t st)
          else Return st
        else Return st
    end.

(** The body of [for bline in fp]: [None] is a line whose bytes do not
    decode; the [except UnicodeDecodeError] clause skips it. *)
Definition scan_line (cfg : config) (st : scan_state) (bline : option string)
  : result scan_state :=
  match bline with
  | None => Return st
  | Some line =>
      let st :=
        if contains LOG_MSGS_START_INDICATOR line
        then with_cleaning_started true st else st in
      for_each (log_msg_rule cfg line) (LOG_MSGS_ERRORS cfg) st
  end.

Definition scan_lines (cfg : config) (lines : list (option string)) (st : scan_state)
  : result scan_state :=
  for_each (scan_line cfg) lines st.

(** The statements after the [with] block. *)
Definition set_status (started : bool) (ec : gmap string value) : gmap string value :=
  if negb started then <["INVALID" := VInt 1]> ec
  else if bool_decide (is_Some (ec !! "COMPLETE_CLEANING_RUN"))
          && bool_decide (ec !! "CANCEL_CLEANING_RUN" = None)
       then <["PASS" := VInt 1]> ec
       else <["FAIL" := VInt 1]> ec.

Definition subtract_paused_time (ec : gmap string value) : gmap string value :=
  let '(total_paused_time, ec) :=
    match ec !! "TOTAL_PAUSED_TIME" with
    | None => (VInt 0, ec)
    | Some v => (v, delete "TOTAL_PAUSED_TIME" ec)
    end in
  <["TOTAL_CLEANING_TIME" := py_sub (get ec "TOTAL_CLEANING_TIME") total_paused_time]> ec.

Definition finalize (st : scan_state) : scan_state :=
  with_error_count
    (subtract_paused_time (set_status (cleaning_started st) (error_count st))) st.

Definition search_for_log_msg_errors (cfg : config) (ec : gmap string value)
    (lines : list (option string)) : result scan_state :=
  st ← scan_lines cfg lines (scan_init ec);
  Return (finalize st).

End LineScan.

(** ** CSV rows *)

(** A [csv.DictReader] row: column name to text. *)
Definition row_get (row : gmap string string) (field : string) : result string :=
  of_option KeyError (row !! field).

(** [int(row[field])] *)
Definition row_int (row : gmap string string) (field : string) : result Z :=
  s ← row_get row field;
  of_option ValueError (py_int s).

(** [enumerate(reader)] *)
Fixpoint enumerate_from {A : Type} (i : Z) (l : list A) : list (Z * A) :=
  match l with
  | [] => []
  | x :: l' => (i, x) :: enumerate_from (i + 1) l'
  end.

Definition enumerate {A : Type} (l : list A) : list (Z * A) := enumerate_from 0 l.

(** [d[k]] on a JSON object kept as a list of pairs. *)
Fixpoint lookup_key {A : Type} (k : string) (l : list (string * A)) : option A :=
  match l with
  | [] => None
  | (k', a) :: l' => if String.eqb k' k then Some a else lookup_key k l'
  end.

(** ** The sensor pass: [search_for_prox_reading_errors] *)

Record prox_state : Type := {
  prox_error_count : gmap string value;
  prev_timestamp : Z;
  i2c_bus_error_start_time : Z;
  last_i2c_bus_error : option string;
  i2c_bus_errors : gmap Z (option string * Z);
  tof_reading_start_time : gmap string Z;
  last_tof_reading : gmap string Z;
  stale_tof_readings : gmap (Z * string) (Z * Z);
  logging_gap_errors : list Z;
  ext_voltage_counter : Z;
  avg_ext_voltage : Q
}.

Definition with_prox_error_count (ec : gmap string value) (st : prox_state) : prox_state :=
  {| prox_error_count := ec;
     prev_timestamp := prev_timestamp st;
     i2c_bus_error_start_time := i2c_bus_error_start_time st;
     last_i2c_bus_error := last_i2c_bus_error st;
     i2c_bus_errors := i2c_bus_errors st;
     tof_reading_start_time := tof_reading_start_time st;
     last_tof_reading := last_tof_reading st;
     stale_tof_readings := stale_tof_readings st;
     logging_gap_errors := logging_gap_errors st;
     ext_voltage_counter := ext_voltage_counter st;
     avg_ext_voltage := avg_ext_voltage st |}.

Definition with_prev_timestamp (t : Z) (st : prox_state) : prox_state :=
  {| prox_error_count := prox_error_count st;
     prev_timestamp := t;
     i2c_bus_error_start_time := i2c_bus_error_start_time st;
     last_i2c_bus_error := last_i2c_bus_error st;
     i2c_bus_errors := i2c_bus_errors st;
     tof_reading_start_time := tof_reading_start_time st;
     last_tof_reading := last_tof_reading st;
     stale_tof_readings := stale_tof_readings st;
     logging_gap_errors := logging_gap_errors st;
     ext_voltage_counter := ext_voltage_counter st;
     avg_ext_voltage := avg_ext_voltage st |}.

(** The three variables of the bus-error tracker, written together. *)
Definition with_i2c (start : Z) (last : option string)
    (errors : gmap Z (option string * Z)) (st : prox_state) : prox_state :=
  {| prox_error_count := prox_error_count st;
     prev_timestamp := prev_timestamp st;
     i2c_bus_error_start_time := start;
     last_i2c_bus_error := last;
     i2c_bus_errors := errors;
     tof_reading_start_time := tof_reading_start_time st;
     last_tof_reading := last_tof_reading st;
     stale_tof_readings := stale_tof_readings st;
     logging_gap_errors := logging_gap_errors st;
     ext_voltage_counter := ext_voltage_counter st;
     avg_ext_voltage := avg_ext_voltage st |}.

(** The three dictionaries of the stale-reading tracker. *)
Definition with_tof (start : gmap string Z) (last : gmap string Z)
    (stale : gmap (Z * string) (Z * Z)) (st : prox_state) : prox_state :=
  {| prox_error_count := prox_error_count st;
     prev_timestamp := prev_timestamp st;
     i2c_bus_error_start_time := i2c_bus_error_start_time st;
     last_i2c_bus_error := last_i2c_bus_error st;
     i2c_bus_errors := i2c_bus_errors st;
     tof_reading_start_time := start;
     last_tof_reading := last;
     stale_tof_readings := stale;
     logging_gap_errors := logging_gap_errors st;
     ext_voltage_counter := ext_voltage_counter st;
     avg_ext_voltage := avg_ext_voltage st |}.

Definition with_logging_gap_errors (l : list Z) (st : prox_state) : prox_state :=
  {| prox_error_count := prox_error_count st;
     prev_timestamp := prev_timestamp st;
     i2c_bus_error_start_time := i2c_bus_error_start_time st;
     last_i2c_bus_error := last_i2c_bus_error st;
     i2c_bus_errors := i2c_bus_errors st;
     tof_reading_start_time := tof_reading_start_time st;
     last_tof_reading := last_tof_reading st;
     stale_tof_readings := stale_tof_readings st;
     logging_gap_errors := l;
     ext_voltage_counter := ext_voltage_counter st;
     avg_ext_voltage := avg_ext_voltage st |}.

Definition with_ext_voltage (counter : Z) (avg : Q) (st : prox_state) : prox_state :=
  {| prox_error_count := prox_error_count st;
     prev_timestamp := prev_timestamp st;
     i2c_bus_error_start_time := i2c_bus_error_start_time st;
     last_i2c_bus_error := last_i2c_bus_error st;
     i2c_bus_errors := i2c_bus_errors st;
     tof_reading_start_time := tof_reading_start_time st;
     last_tof_reading := last_tof_reading st;
     stale_tof_readings := stale_tof_readings st;
     logging_gap_errors := logging_gap_errors st;
     ext_voltage_counter := counter;
     avg_ext_voltage := avg |}.

(** [{field: -1 for field in fields}] *)
Definition all_minus_one (fields : list string) : gmap string Z :=
  fold_left (fun d field => <[field := -1]> d) fields ∅.

(** The locals before the first row; KeyError when the configuration has
    no ['STALE_TOF_READINGS'] entry. *)
Definition prox_init (cfg : config) (ec : gmap string value) : result prox_state :=
  fields ← of_option KeyError
             (lookup_key "STALE_TOF_READINGS" (PROX_ERROR_FIELDS_OF_INTEREST cfg));
  Return {| prox_error_count := ec;
            prev_timestamp := -1;
            i2c_bus_error_start_time := -1;
            last_i2c_bus_error := None;
            i2c_bus_errors := ∅;
            tof_reading_start_time := all_minus_one fields;
            last_tof_reading := all_minus_one fields;
            stale_tof_readings := ∅;
            logging_gap_errors := [];
            ext_voltage_counter := 0;
            avg_ext_voltage := 0 |}.

(** Voltage averager: the ['EXTERNAL_VOLTAGE'] branch. *)
Definition external_voltage (row : gmap string string) (fields : list string)
    (st : prox_state) : result prox_state :=
  let counter := ext_voltage_counter st + 1 in
  field ← of_option IndexError (fields !! 0%nat);
  v ← row_int row field;
  let avg := (avg_ext_voltage st + inject_Z v / inject_Z 10)%Q in
  let st := with_ext_voltage counter avg st in
  Return (if counter =? 10
          then with_prox_error_count
                 (<["AVG_EXT_VOLTAGE_AFTER_RECONNECT" := VInt (int_of_float avg)]>
                    (prox_error_count st)) st
          else st).

(** The label of the row: the last field, in configuration order, whose
    masked code is in the codebook. *)
Definition tof_error_reading (cfg : config) (row : gmap string string)
    (fields : list string) : result (option string) :=
  for_each
    (fun cur field =>
       v ← row_int row field;
       let tof_sensor_code := hex (Z.land 65280 v) in
       Return (match TOF_ERROR_CODES cfg !! tof_sensor_code with
               | Some (label, _) => Some label
               | None => cur
               end))
    fields None.

(** Bus-error interval tracker: the ['TOF_SENSOR_ERRORS'] branch after
    the label of the row is known. *)
Definition i2c_track (error_code : string) (last_row : bool) (cur_timestamp : Z)
    (cur_tof_error_reading : option string) (st : prox_state) : prox_state :=
  if negb (bool_decide (last_i2c_bus_error st = cur_tof_error_reading)) || last_row then
    let st :=
      if 0 <? i2c_bus_error_start_time st then
        with_i2c (-1) cur_tof_error_reading
          (<[i2c_bus_error_start_time st :=
               (last_i2c_bus_error st, cur_timestamp - i2c_bus_error_start_time st)]>
             (i2c_bus_errors st)) st
      else st in
    if (i2c_bus_error_start_time st <? 0) && bool_decide (is_Some cur_tof_error_reading) then
      with_i2c cur_timestamp cur_tof_error_reading (i2c_bus_errors st)
        (with_prox_error_count (incr (prox_error_count st) error_code) st)
    else st
  else st.

(** Stale-reading tracker: the body of the loop over the monitored
    fields in the ['STALE_TOF_READINGS'] branch. *)
Definition stale_track (row : gmap string string) (last_row : bool) (cur_timestamp : Z)
    (st : prox_state) (field : string) : result prox_state :=
  tof_reading ← row_int row field;
  last ← of_option KeyError (last_tof_reading st !! field);
  if negb (tof_reading =? last) || (255 <? tof_reading) || last_row then
    start ← of_option KeyError (tof_reading_start_time st !! field);
    let tof_reading_duration := cur_timestamp - start in
    let stale :=
      if (STALE_TOF_READING_THRESHOLD <? tof_reading_duration) && (0 <? start)
      then <[(start, field) := (last, tof_reading_duration)]> (stale_tof_readings st)
      else stale_tof_readings st in
    Return (with_tof (<[field := cur_timestamp]> (tof_reading_start_time st))
                     (<[field := tof_reading]> (last_tof_reading st)) stale st)
  else Return st.

(** Logging-gap tracker: the ['PROX_READINGS_LOGGING_GAP'] branch. *)
Definition logging_gap (error_code : string) (cur_timestamp : Z) (st : prox_state)
  : prox_state :=
  if 0 <? prev_timestamp st then
    let gap := cur_timestamp - prev_timestamp st in
    if negb (Qle_bool (inject_Z gap) LOGGING_GAP_ERROR_THRESHOLD) then
      with_logging_gap_errors (logging_gap_errors st ++ [gap])
        (with_prox_error_count (incr (prox_error_count st) error_code) st)
    else st
  else st.

(** The body of [for error_code, fields in PROX_ERROR_FIELDS_OF_INTEREST.items()]. *)
Definition prox_entry (cfg : config) (base_reconnected : Z) (row : gmap string string)
    (last_row : bool) (cur_timestamp : Z) (st : prox_state)
    (entry : string * list string) : result prox_state :=
  let '(error_code, fields) := entry in
  st ← (if String.eqb error_code "EXTERNAL_VOLTAGE" && (base_reconnected <? cur_timestamp)
        then external_voltage row fields st else Return st);
  st ← (if String.eqb error_code "TOF_SENSOR_ERRORS"
        then cur ← tof_error_reading cfg row fields;
             Return (i2c_track error_code last_row cur_timestamp cur st)
        else Return st);
  if String.eqb error_code "STALE_TOF_READINGS"
  then for_each (stale_track row last_row cur_timestamp) fields st
  else if String.eqb error_code "PROX_READINGS_LOGGING_GAP"
  then Return (logging_gap error_code cur_timestamp st)
  else Return st.

(** The body of [for i, row in enumerate(reader)]. *)
Definition prox_row (cfg : config) (base_reconnected : Z) (num_rows : Z)
    (st : prox_state) (irow : Z * gmap string string) : result prox_state :=
  let '(i, row) := irow in
  cur_timestamp ← row_int row PROX_READING_TIMESTAMP_FIELD;
  st ← for_each (prox_entry cfg base_reconnected row (i =? num_rows - 1) cur_timestamp)
         (PROX_ERROR_FIELDS_OF_INTEREST cfg) st;
  Return (with_prev_timestamp cur_timestamp st).

Definition search_for_prox_reading_errors (cfg : config) (ec : gmap string value)
    (base_reconnected : Z) (rows : list (gmap string string)) : result prox_state :=
  st ← prox_init cfg ec;
  for_each (prox_row cfg base_reconnected (Z.of_nat (length rows))) (enumerate rows) st.

(** ** The pose pass: [search_for_stationary_errors] *)

Record pose_state : Type := {
  pose_error_count : gmap string value;
  stationary_errors : list Z;
  last_pose : Q * Q;
  stationary_count : Z
}.

(** [np.linalg.norm(v) < r], compared on the squares. *)
Definition norm_lt (v : Q * Q) (r : Q) : bool :=
  negb (Qle_bool r 0) && negb (Qle_bool (r * r) (fst v * fst v + snd v * snd v)).

(** The two places that note a stationary period share this step:
    [if stationary_count > STATIONARY_TIME_ITERS_THRESHOLD: ...]. *)
Definition note_stationary (st : pose_state) : pose_state :=
  if STATIONARY_TIME_ITERS_THRESHOLD <? stationary_count st then
    {| pose_error_count := incr (pose_error_count st) "ROBOT_STATIONARY_ERROR";
       stationary_errors :=
         stationary_errors st ++ [stationary_count st * READING_SUBSAMPLE_TIME];
       last_pose := last_pose st;
       stationary_count := stationary_count st |}
  else st.

Section PosePass.

Variable py_float : string -> option Q.

(** The body of [for cnt, row in enumerate(reader)]. *)
Definition pose_row (st : pose_state) (crow : Z * gmap string string)
  : result pose_state :=
  let '(cnt, row) := crow in
  if cnt mod READING_SUBSAMPLE_ITERS =? 0 then
    xs ← row_get row "smooth_x(mm)";
    x ← of_option ValueError (py_float xs);
    ys ← row_get row "smooth_y(mm)";
    y ← of_option ValueError (py_float ys);
    let cur_pose := (x, y) in
    let distance_traveled := ((x - fst (last_pose st))%Q, (y - snd (last_pose st))%Q) in
    if norm_lt distance_traveled STATIONARY_POSE_THRESHOLD then
      Return {| pose_error_count := pose_error_count st;
                stationary_errors := stationary_errors st;
                last_pose := last_pose st;
                stationary_count := stationary_count st + 1 |}
    else
      let st := note_stationary st in
      Return {| pose_error_count := pose_error_count st;
                stationary_errors := stationary_errors st;
                last_pose := cur_pose;
                stationary_count := 0 |}
  else Return st.

Definition pose_init (ec : gmap string value) : pose_state :=
  {| pose_error_count := ec;
     stationary_errors := [];
     last_pose := (0%Q, 0%Q);
     stationary_count := 0 |}.

Definition search_for_stationary_errors (ec : gmap string value)
    (rows : list (gmap string string)) : result pose_state :=
  st ← for_each pose_row (enumerate rows) (pose_init ec);
  Return (note_stationary st).

End PosePass.

(** ** Rows of the summary files *)

Inductive cell : Type :=
| CNum (v : value)
| CStr (s : string)
| CNone.

(** [[0] * len(header)] *)
Definition blank_row (header : list string) : list cell :=
  replicate (length header) (CNum (VInt 0)).

(** [l[i] = x] *)
Definition list_set {A : Type} (i : nat) (x : A) (l : list A) : result (list A) :=
  if decide (i < length l)%nat then Return (<[i := x]> l) else Raise IndexError.

(** [{header: idx for idx, header in enumerate(headers)}] *)
Definition col_idx (headers : list string) : gmap string nat :=
  fold_left (fun d ih => <[snd ih := fst ih]> d) (imap pair headers) ∅.

Definition keys {A : Type} (d : list (string * A)) : list string := map fst d.

Definition SUMMARY_CSV_HEADER (cfg : config) : list string :=
  ["LOG_NAME"; "BUILD_VERSION"; "RUN_STATUS"]
    ++ keys (LOG_MSGS_ERRORS cfg)
    ++ keys (PROX_ERROR_FIELDS_OF_INTEREST cfg)
    ++ keys (POSE_ERROR_FIELDS_OF_INTEREST cfg).

Definition SUMMARY_CSV_ERROR_TO_COL_IDX (cfg : config) : gmap string nat :=
  col_idx (SUMMARY_CSV_HEADER cfg).

Definition AUTONOMY_CSV_ERROR_TO_COL_IDX (cfg : config) : gmap string nat :=
  col_idx (AUTONOMY_CSV_HEADER cfg).

(** [row[idx[name]] = x] and [row[idx[name]]] *)
Definition set_col (idx : gmap string nat) (name : string) (x : cell) (row : list cell)
  : result (list cell) :=
  i ← of_option KeyError (idx !! name);
  list_set i x row.

Definition get_col (idx : gmap string nat) (name : string) (row : list cell)
  : result cell :=
  i ← of_option KeyError (idx !! name);
  of_option IndexError (row !! i).

Definition cell_of_build (build : option string) : cell :=
  match build with
  | Some b => CStr b
  | None => CNone
  end.

(** ** Cross-run state of [process_bb_files] *)

(** [autonomy_statistics[started_where][build][key]], three nested
    [defaultdict]s; the innermost also holds the key ["count"]. *)
Definition bucket (stats : gmap string (gmap (option string) (gmap string Z)))
    (started_where : string) (build : option string) : gmap string Z :=
  default ∅ (default ∅ (stats !! started_where) !! build).

(** [autonomy_statistics[started_where][build][key] += 1] *)
Definition bump (started_where : string) (build : option string) (key : string)
    (stats : gmap string (gmap (option string) (gmap string Z)))
  : gmap string (gmap (option string) (gmap string Z)) :=
  let b := bucket stats started_where build in
  <[started_where :=
      <[build := <[key := default 0 (b !! key) + 1]> b]>
        (default ∅ (stats !! started_where))]> stats.

Record summary : Type := {
  overall_error_count : gmap string value;
  autonomy_statistics : gmap string (gmap (option string) (gmap string Z))
}.

Definition summary_init : summary :=
  {| overall_error_count := ∅; autonomy_statistics := ∅ |}.

(** The rows of one log together with the cross-run state. *)
Record merge_state : Type := {
  summary_row : list cell;
  autonomy_row : list cell;
  totals : summary
}.

(** Lines 1593-1598 and 1614: the two rows of a log. *)
Definition init_rows (cfg : config) (log : string) (build : option string)
    (acc : summary) : result merge_state :=
  srow ← list_set 0 (CStr log) (blank_row (SUMMARY_CSV_HEADER cfg));
  arow ← list_set 0 (CStr log) (blank_row (AUTONOMY_CSV_HEADER cfg));
  srow ← list_set 1 (cell_of_build build) srow;
  arow ← list_set 1 (cell_of_build build) arow;
  Return {| summary_row := srow; autonomy_row := arow; totals := acc |}.

(** Reading a missing key of a [defaultdict(int)] stores [0] under it. *)
Definition touch (k : string) (d : gmap string value) : gmap string value :=
  match d !! k with
  | Some _ => d
  | None => <[k := VInt 0]> d
  end.

(** Start location, with the keys the three reads leave behind. *)
Definition started_location (ec : gmap string value) : string * gmap string value :=
  let ec := touch "STARTED_ON_BASE" ec in
  if ge_one (get ec "STARTED_ON_BASE") then ("ON_BASE", ec)
  else
    let ec := touch "STARTED_OFF_BASE" ec in
    if ge_one (get ec "STARTED_OFF_BASE") then ("OFF_BASE", ec)
    else
      let ec := touch "STARTED_ON_BASE_UNDOCKING" ec in
      if ge_one (get ec "STARTED_ON_BASE_UNDOCKING") then ("ON_BASE", ec)
      else ("OFF_BASE", ec).

Definition is_status (error_code : string) : bool :=
  String.eqb error_code "PASS" || String.eqb error_code "FAIL"
  || String.eqb error_code "INVALID".

(** The body of [for error_code, count in error_count.items()]. *)
Definition merge_item (cfg : config) (started_where : string) (build : option string)
    (st : merge_state) (item : string * value) : result merge_state :=
  let '(error_code, count) := item in
  st ← (if is_status error_code then
          srow ← list_set 2 (CStr error_code) (summary_row st);
          Return {| summary_row := srow; autonomy_row := autonomy_row st;
                    totals := totals st |}
        else
          st ← (if bool_decide (error_code ∈ AUTONOMY_CSV_HEADER cfg) then
                  let stats :=
                    bump started_where build error_code
                         (autonomy_statistics (totals st)) in
                  arow ← set_col (AUTONOMY_CSV_ERROR_TO_COL_IDX cfg) error_code
                            (CNum count) (autonomy_row st);
                  Return {| summary_row := summary_row st; autonomy_row := arow;
                            totals := {| overall_error_count :=
                                           overall_error_count (totals st);
                                         autonomy_statistics := stats |} |}
                else Return st);
          srow ← set_col (SUMMARY_CSV_ERROR_TO_COL_IDX cfg) error_code
                    (CNum count) (summary_row st);
          Return {| summary_row := srow; autonomy_row := autonomy_row st;
                    totals := totals st |});
  let overall := overall_error_count (totals st) in
  let overall :=
    if String.eqb error_code "TOTAL_CLEANING_TIME"
    then <[error_code := py_add (get overall error_code) count]> overall
    else incr overall error_code in
  Return {| summary_row := summary_row st; autonomy_row := autonomy_row st;
            totals := {| overall_error_count := overall;
                         autonomy_statistics := autonomy_statistics (totals st) |} |}.

(** [sum([error_count[col] for col in cols_to_add])] *)
Definition sum_cols (ec : gmap string value) (cols_to_add : list string) : value :=
  fold_left py_add (map (get ec) cols_to_add) (VInt 0).

(** The body of [for addition_col, cols_to_add in AUTONOMY_COLUMN_ADDITIONS.items()]. *)
Definition merge_addition (cfg : config) (started_where : string)
    (build : option string) (ec : gmap string value) (st : merge_state)
    (entry : string * list string) : result merge_state :=
  let '(addition_col, cols_to_add) := entry in
  let addition := sum_cols ec cols_to_add in
  arow ← set_col (AUTONOMY_CSV_ERROR_TO_COL_IDX cfg) addition_col (CNum addition)
            (autonomy_row st);
  let stats := autonomy_statistics (totals st) in
  let stats :=
    if ge_one addition then bump started_where build addition_col stats else stats in
  Return {| summary_row := summary_row st; autonomy_row := arow;
            totals := {| overall_error_count := overall_error_count (totals st);
                         autonomy_statistics := stats |} |}.

(** Lines 1705-1752: the merge of one run into the cross-run state. *)
Definition merge_run (cfg : config) (build : option string) (ec : gmap string value)
    (st : merge_state) : result merge_state :=
  let '(started_where, ec) := started_location ec in
  if bool_decide (ec = ∅) then
    srow ← list_set 2 (CStr "INVALID") (summary_row st);
    Return {| summary_row := srow; autonomy_row := autonomy_row st;
              totals := {| overall_error_count :=
                             incr (overall_error_count (totals st)) "NO_CLEANING_RUN";
                           autonomy_statistics := autonomy_statistics (totals st) |} |}
  else
    st ← for_each (merge_item cfg started_where build) (map_to_list ec) st;
    let st :=
      if bool_decide (is_Some (ec !! "CLEANING_START"))
         || bool_decide (is_Some (ec !! "SUSPENDED_CHARGING_START"))
      then {| summary_row := summary_row st; autonomy_row := autonomy_row st;
              totals := {| overall_error_count := overall_error_count (totals st);
                           autonomy_statistics :=
                             bump started_where build "count"
                                  (autonomy_statistics (totals st)) |} |}
      else st in
    for_each (merge_addition cfg started_where build ec)
             (AUTONOMY_COLUMN_ADDITIONS cfg) st.

(** [row[idx[state]] >= 1] and [row[idx[state]] == 0] on a row cell:
    ordering a text or [None] cell against a number is a TypeError. *)
Definition cell_ge_one (c : cell) : result bool :=
  match c with
  | CNum v => Return (ge_one v)
  | CStr _ | CNone => Raise TypeError
  end.

Definition cell_eq_zero (c : cell) : bool :=
  match c with
  | CNum v => eq_zero v
  | CStr _ | CNone => false
  end.

(** The test of line 1822. *)
Definition transition_failed (cfg : config) (arow : list cell)
    (start_state end_state : string) : result bool :=
  s ← get_col (AUTONOMY_CSV_ERROR_TO_COL_IDX cfg) start_state arow;
  started ← cell_ge_one s;
  if (started : bool) then
    e ← get_col (AUTONOMY_CSV_ERROR_TO_COL_IDX cfg) end_state arow;
    Return (cell_eq_zero e)
  else Return false.

(** The body of [for transition, (start_state, end_state) in
    AUTONOMY_TRANSITIONS.items()]. *)
Definition transition_step (cfg : config) (arow : list cell) (out : list (list cell))
    (entry : string * (string * string)) : result (list (list cell)) :=
  let '(transition, (start_state, end_state)) := entry in
  failed ← transition_failed cfg arow start_state end_state;
  if (failed : bool) then
    log ← of_option IndexError (arow !! 0%nat);
    build ← of_option IndexError (arow !! 1%nat);
    Return (out ++ [[CStr transition; log; build; CStr EmptyString; CStr EmptyString; CStr EmptyString]])%list
  else Return out.

(** Lines 1821-1824: the transition-failure rows of one log. *)
Definition transition_rows (cfg : config) (arow : list cell) : result (list (list cell)) :=
  for_each (transition_step cfg arow) (AUTONOMY_TRANSITIONS cfg) [].

(** ** The rollup: percentages per (start location, build) bucket *)

(** [(build_error_count / count) * 100] on two [int]s. *)
Definition percentage (build_error_count count : Z) : result Q :=
  if count =? 0 then Raise ZeroDivisionError
  else Return ((inject_Z build_error_count / inject_Z count) * inject_Z 100)%Q.

(** The body of [for error_code in autonomy_statistics[started_where][build]]. *)
Definition rollup_item (cfg : config) (b : gmap string Z)
    (rows : list cell * list cell) (error_code : string)
  : result (list cell * list cell) :=
  if negb (String.eqb error_code "count") then
    let build_error_count := default 0 (b !! error_code) in
    p ← percentage build_error_count (default 0 (b !! "count"));
    arow ← set_col (AUTONOMY_CSV_ERROR_TO_COL_IDX cfg) error_code
              (CNum (VInt build_error_count)) (fst rows);
    prow ← set_col (AUTONOMY_CSV_ERROR_TO_COL_IDX cfg) error_code
              (CNum (VFloat p)) (snd rows);
    Return (arow, prow)
  else Return rows.

Definition plot_events : list string :=
  ["CLEANING_START (sum)"; "UNDOCKING (sum)"; "ACTIVE_CLEANING_SESSION (sum)";
   "DOCKING (sum)"; "DOCKING_SUCCESSFUL (sum)"].

(** [[f(x) for x in l]] where [f] may raise. *)
Fixpoint map_result {A B : Type} (f : A -> result B) (l : list A) : result (list B) :=
  match l with
  | [] => Return []
  | x :: l' => y ← f x; ys ← map_result f l'; Return (y :: ys)
  end.

Record bucket_rows : Type := {
  count_row : list cell;
  percentage_row : list cell;
  plot_percentages : list cell
}.

(** The body of [for build in autonomy_statistics[started_where]]. *)
Definition rollup_bucket (cfg : config) (started_where : string)
    (build : option string) (b : gmap string Z) : result bucket_rows :=
  arow ← list_set 0 (CStr ("All logs (" +:+ started_where +:+ ")"))
            (blank_row (AUTONOMY_CSV_HEADER cfg));
  prow ← list_set 0 (CStr ("All logs % (" +:+ started_where +:+ ")"))
            (blank_row (AUTONOMY_CSV_HEADER cfg));
  arow ← list_set 1 (cell_of_build build) arow;
  prow ← list_set 1 (cell_of_build build) prow;
  rows ← for_each (rollup_item cfg b) (map fst (map_to_list b)) (arow, prow);
  plot ← map_result
            (fun event => get_col (AUTONOMY_CSV_ERROR_TO_COL_IDX cfg) event (snd rows))
            plot_events;
  Return {| count_row := fst rows; percentage_row := snd rows;
            plot_percentages := plot |}.

(** The buckets in the order of the two outer loops. *)
Definition buckets (stats : gmap string (gmap (option string) (gmap string Z)))
  : list (string * option string * gmap string Z) :=
  flat_map (fun sw => map (fun bb => (fst sw, fst bb, snd bb)) (map_to_list (snd sw)))
           (map_to_list stats).

Definition autonomy_rollup (cfg : config)
    (stats : gmap string (gmap (option string) (gmap string Z)))
  : result (list bucket_rows) :=
  map_result (fun b => rollup_bucket cfg (fst (fst b)) (snd (fst b)) (snd b))
             (buckets stats).

(** ** The batch: [process_bb_files] *)

(** What the simulator leaves on disk for one log. *)
Record bb_file : Type := {
  log : string;
  build_version : option string;
  log_msgs : list (option string);
  pose_data : list (gmap string string);
  prox_readings : list (gmap string string)
}.

Record batch : Type := {
  summary_csv : list (list cell);
  autonomy_csv : list (list cell);
  transitions_csv : list (list cell);
  batch_totals : summary
}.

Definition batch_init : batch :=
  {| summary_csv := []; autonomy_csv := []; transitions_csv := [];
     batch_totals := summary_init |}.

Section Batch.

Variable py_float : string -> option Q.

(** The error counts of one log after the passes that fill them. *)
Definition analyze (cfg : config) (no_prox_reading_errors : bool) (f : bb_file)
  : result (gmap string value) :=
  scan ← search_for_log_msg_errors py_float cfg ∅ (log_msgs f);
  pose ← search_for_stationary_errors py_float (error_count scan) (pose_data f);
  if no_prox_reading_errors then
    prox ← search_for_prox_reading_errors cfg (pose_error_count pose)
              (base_reconnected_timestamp scan) (prox_readings f);
    Return (prox_error_count prox)
  else Return (pose_error_count pose).

(** The body of [for log in bb_files]: the rows of the log, its counts,
    the merge, and on the autonomy-summary path the transition rows. *)
Definition process_bb_file (cfg : config) (no_prox_reading_errors autonomy_summary : bool)
    (acc : batch) (f : bb_file) : result batch :=
  st ← init_rows cfg (log f) (build_version f) (batch_totals acc);
  ec ← analyze cfg no_prox_reading_errors f;
  st ← merge_run cfg (build_version f) ec st;
  failures ← (if autonomy_summary then transition_rows cfg (autonomy_row st)
               else Return []);
  Return {| summary_csv := summary_csv acc ++ [summary_row st];
            autonomy_csv :=
              if autonomy_summary then autonomy_csv acc ++ [autonomy_row st]
              else autonomy_csv acc;
            transitions_csv := transitions_csv acc ++ failures;
            batch_totals := totals st |}.

Definition process_bb_files (cfg : config) (no_prox_reading_errors autonomy_summary : bool)
    (bb_files : list bb_file) : result (batch * list bucket_rows) :=
  acc ← for_each (process_bb_file cfg no_prox_reading_errors autonomy_summary)
          bb_files batch_init;
  rollup ← (if autonomy_summary
            then autonomy_rollup cfg (autonomy_statistics (batch_totals acc))
            else Return []);
  Return (acc, rollup).

End Batch.

(** ** Vocabulary of the statements *)

(** Statuses are neither rule codes nor members of the reset group. *)
Definition no_status_codes (cfg : config) : Prop :=
  Forall (fun rule => is_status (fst rule) = false) (LOG_MSGS_ERRORS cfg)
  /\ Forall (fun state => is_status state = false) (AUTONOMY_SUSPENDED_STATES cfg).

Definition status_free (ec : gmap string value) : Prop :=
  forall k, is_status k = true -> ec !! k = None.

(** The statuses a finished run carries, in the order the summary looks
    for them. *)
Definition statuses (ec : gmap string value) : list string :=
  List.filter (fun s => bool_decide (is_Some (ec !! s))) ["PASS"; "FAIL"; "INVALID"].

(** A decodable line of the stream matches the rule filed under [code]. *)
Definition seen (cfg : config) (code : string) (lines : list (option string)) : Prop :=
  exists line d,
    Some line ∈ lines /\ (code, Pattern d) ∈ LOG_MSGS_ERRORS cfg /\ contains d line = true.

(** How often the cancel rule counts one line: once per pattern found. *)
Definition cancel_hits (line : string) (rule : string * error_desc) : Z :=
  if String.eqb (fst rule) "CANCEL_CLEANING_RUN"
  then Z.of_nat (length (List.filter (fun d => contains d line) (cancel_descs (snd rule))))
  else 0.

Definition line_cancel_hits (cfg : config) (bline : option string) : Z :=
  match bline with
  | Some line => foldr Z.add 0 (map (cancel_hits line) (LOG_MSGS_ERRORS cfg))
  | None => 0
  end.

Definition total_cancel_hits (cfg : config) (lines : list (option string)) : Z :=
  foldr Z.add 0 (map (line_cancel_hits cfg) lines).

(** The captured numeric token of a line does not parse. *)
Definition capture_fails (py_float : string -> option Q) (code line : string) : Prop :=
  ((code = "TOTAL_CLEANING_TIME" \/ code = "TOTAL_PAUSED_TIME")
   /\ py_float (trailing_token line) = None)
  \/ ((code = "NAVIGATION_FALLING" \/ code = "AVG_EXT_VOLTAGE_AFTER_RECONNECT")
      /\ raises (timestamp_token line ≫= (fun tok => of_option ValueError (py_int tok)))).

(** The rows the pose pass looks at: every [READING_SUBSAMPLE_ITERS]-th
    row of the stream, starting with the first. *)
Definition subsampled {A : Type} (rows : list A) : list A :=
  map snd (List.filter (fun cr => fst cr mod READING_SUBSAMPLE_ITERS =? 0) (enumerate rows)).

(** The two pose columns of a row parse to the position [p]. *)
Definition at_position (py_float : string -> option Q) (p : Q * Q)
    (row : gmap string string) : Prop :=
  exists xs ys,
    row !! "smooth_x(mm)" = Some xs /\ row !! "smooth_y(mm)" = Some ys
    /\ py_float xs = Some (fst p) /\ py_float ys = Some (snd p).

Definition pose_at (x y : string) : gmap string string :=
  {[ "smooth_x(mm)" := x; "smooth_y(mm)" := y ]}.

(** The count the transition test reads for a state: the composite sum
    when the state is a composite column, else the run's own count. *)
Definition count_for (cfg : config) (ec : gmap string value) (state : string) : value :=
  match lookup_key state (AUTONOMY_COLUMN_ADDITIONS cfg) with
  | Some cols_to_add => sum_cols ec cols_to_add
  | None => get ec state
  end.

(** A state has a column of its own, after the log name and the build. *)
Definition state_column (cfg : config) (state : string) : Prop :=
  is_status state = false
  /\ exists i, AUTONOMY_CSV_ERROR_TO_COL_IDX cfg !! state = Some i /\ (2 <= i)%nat.

(** The record written for a failed transition of the run behind [arow]. *)
Definition transition_record (transition : string) (arow : list cell) : list cell :=
  [CStr transition; default CNone (arow !! 0%nat); default CNone (arow !! 1%nat);
   CStr EmptyString; CStr EmptyString; CStr EmptyString].

(** The bucket a run is counted in. *)
Definition run_bucket (f : bb_file) (ec : gmap string value) : string * option string :=
  (fst (started_location ec), build_version f).

(** The keys of the statistics are columns of the header, or ["count"]. *)
Definition keys_in_header (cfg : config)
    (stats : gmap string (gmap (option string) (gmap string Z))) : Prop :=
  forall sw build k,
    is_Some (bucket stats sw build !! k) -> k = "count" \/ k ∈ AUTONOMY_CSV_HEADER cfg.


(** ** Example inputs *)

(** An instance of the [float] parameter for the examples: exact on
    integer literals, [None] on text that is not a number at all (other
    float literals do not occur in the examples). *)
Definition float_of_literal (s : string) : option Q := inject_Z <$> py_int s.

Definition line_scan_cfg : config :=
  {| LOG_MSGS_ERRORS :=
       [("CANCEL_CLEANING_RUN", Patterns ["cleaning cancelled"; "UI cancel"]);
        ("COMPLETE_CLEANING_RUN", Pattern "cleaning complete");
        ("TOTAL_CLEANING_TIME", Pattern "total cleaning time");
        ("TOTAL_PAUSED_TIME", Pattern "total paused time");
        ("NAVIGATION_FALLING", Pattern "NAVIGATION_FALLING")];
     AUTONOMY_CSV_HEADER := [];
     AUTONOMY_COLUMN_ADDITIONS := [];
     AUTONOMY_SUSPENDED_STATES := [];
     AUTONOMY_TRANSITIONS := [];
     TOF_ERROR_CODES := ∅;
     PROX_ERROR_FIELDS_OF_INTEREST := [];
     POSE_ERROR_FIELDS_OF_INTEREST := [] |}.

Definition passing_run : list (option string) :=
  [Some "12 Start MAPPING"; None; Some "97 cleaning complete";
   Some "98 total cleaning time 300"].

Definition cancel_on_two_lines : list (option string) :=
  [Some "Start MAPPING"; Some "40 user: cleaning cancelled"; Some "41 app: UI cancel"].

Definition cancel_on_one_line : list (option string) :=
  [Some "Start MAPPING"; Some "40 cleaning cancelled by UI cancel"].

Definition paused_only_run : list (option string) :=
  [Some "Start MAPPING"; Some "50 total paused time 12"].

Definition unparsable_run : list (option string) :=
  [Some "Start MAPPING"; Some "98 total cleaning time abc"].

(** Sensor streams: one coded field for the bus-error tracker, one
    range field for the stale-reading tracker.  Raw code 256 masks to
    0x100 (mapped to ERR1), raw code 512 to 0x200 (not in the codebook). *)
Definition bus_cfg : config :=
  {| LOG_MSGS_ERRORS := [];
     AUTONOMY_CSV_HEADER := [];
     AUTONOMY_COLUMN_ADDITIONS := [];
     AUTONOMY_SUSPENDED_STATES := [];
     AUTONOMY_TRANSITIONS := [];
     TOF_ERROR_CODES := {[ "0x100" := ("ERR1", "first bus error") ]};
     PROX_ERROR_FIELDS_OF_INTEREST :=
       [("TOF_SENSOR_ERRORS", ["tof_code"]); ("STALE_TOF_READINGS", [])];
     POSE_ERROR_FIELDS_OF_INTEREST := [] |}.

Definition bus_row (time code : string) : gmap string string :=
  {[ "TimeInMS" := time; "tof_code" := code ]}.

Definition stale_cfg : config :=
  {| LOG_MSGS_ERRORS := [];
     AUTONOMY_CSV_HEADER := [];
     AUTONOMY_COLUMN_ADDITIONS := [];
     AUTONOMY_SUSPENDED_STATES := [];
     AUTONOMY_TRANSITIONS := [];
     TOF_ERROR_CODES := ∅;
     PROX_ERROR_FIELDS_OF_INTEREST := [("STALE_TOF_READINGS", ["tof_range"])];
     POSE_ERROR_FIELDS_OF_INTEREST := [] |}.

Definition stale_row (time range : string) : gmap string string :=
  {[ "TimeInMS" := time; "tof_range" := range ]}.

(** A batch configuration with one composite column and one transition
    pair; the run of [undocking_only] undocks and never docks, and shows
    no cleaning-start key. *)
Definition autonomy_cfg : config :=
  {| LOG_MSGS_ERRORS :=
       [("CLEANING_START", Pattern "cleaning started");
        ("UNDOCKING", Pattern "undocking");
        ("DOCKING", Pattern "docked on base");
        ("STARTED_ON_BASE", Pattern "started on base");
        ("STARTED_OFF_BASE", Pattern "started off base");
        ("STARTED_ON_BASE_UNDOCKING", Pattern "leaving base");
        ("TOTAL_CLEANING_TIME", Pattern "total cleaning time")];
     AUTONOMY_CSV_HEADER :=
       ["LOG_NAME"; "BUILD_VERSION"; "CLEANING_START"; "UNDOCKING"; "DOCKING";
        "CLEANING_START (sum)"; "UNDOCKING (sum)"; "ACTIVE_CLEANING_SESSION (sum)";
        "DOCKING (sum)"; "DOCKING_SUCCESSFUL (sum)"];
     AUTONOMY_COLUMN_ADDITIONS := [("UNDOCKING (sum)", ["UNDOCKING"])];
     AUTONOMY_SUSPENDED_STATES := [];
     AUTONOMY_TRANSITIONS := [("UNDOCKING_TO_DOCKING", ("UNDOCKING (sum)", "DOCKING"))];
     TOF_ERROR_CODES := ∅;
     PROX_ERROR_FIELDS_OF_INTEREST := [];
     POSE_ERROR_FIELDS_OF_INTEREST := [("ROBOT_STATIONARY_ERROR", [])] |}.

Definition undocking_only : bb_file :=
  {| log := "run_17.nz.bin";
     build_version := Some "1.2.0-282";
     log_msgs := [Some "12 undocking"];
     pose_data := [];
     prox_readings := [] |}.

(** The counts, the rows and the transition records of that run, as the
    code computes them. *)
Definition undocking_counts : gmap string value :=
  Eval vm_compute in
    match analyze float_of_literal autonomy_cfg false undocking_only with
    | Return ec => ec
    | Raise _ => ∅
    end.

Definition undocking_rows_init : merge_state :=
  Eval vm_compute in
    match init_rows autonomy_cfg (log undocking_only) (build_version undocking_only)
            summary_init with
    | Return st => st
    | Raise _ => {| summary_row := []; autonomy_row := []; totals := summary_init |}
    end.

Definition undocking_rows : merge_state :=
  Eval vm_compute in
    match merge_run autonomy_cfg (build_version undocking_only) undocking_counts
            undocking_rows_init with
    | Return st => st
    | Raise _ => undocking_rows_init
    end.

Definition undocking_batch : batch :=
  Eval vm_compute in
    match for_each (process_bb_file float_of_literal autonomy_cfg false true)
            [undocking_only] batch_init with
    | Return acc => acc
    | Raise _ => batch_init
    end.

(** ** Vocabulary of the sensor-pass and pose-pass properties *)



(** ** Vocabulary of the line-scan and batch properties *)


Section BatchVocabulary.

Variable py_float : string -> option Q.



End BatchVocabulary.

(** ** Example inputs of the sensor-pass, line-scan and batch properties *)













(** ** Files next to the log: the drop threshold and the build version *)





(** ** The crop of a map: [crop_image_to_interest] *)








(** ** Message searches: [search_for_any_errors_alerts] and [event_search] *)

(** [line.split("\n")] *)
Definition split_lines (line : string) : list string := str_split "010" line.

(** The body of [for error_name in self.Custom_Error]. *)
Definition alerts_of_name (Split_List : list string) (am : list string)
    (error_name : string) : list string :=
  fold_left
    (fun am piece => if contains error_name piece then (am ++ [piece])%list else am)
    Split_List am.

(** The body of [for bline in fp]; an undecodable line is skipped. *)
Definition alerts_of_line (Custom_Error : list string) (am : list string)
    (bline : option string) : list string :=
  match bline with
  | None => am
  | Some line => fold_left (alerts_of_name (split_lines line)) Custom_Error am
  end.

Definition search_for_any_errors_alerts (Custom_Error : list string)
    (lines : list (option string)) : list string :=
  fold_left (alerts_of_line Custom_Error) lines [].

Record event_state : Type := {
  appending : bool;
  returnList : list string
}.

(** The body of [for index in range(len(Split_List))]. *)
Definition event_piece (start_string endstring : list string) (i : nat)
    (st : event_state) (piece : string) : result event_state :=
  s ← of_option IndexError (start_string !! i);
  let st :=
    if contains s piece
    then {| appending := true; returnList := returnList st |} else st in
  e ← of_option IndexError (endstring !! i);
  let st :=
    if contains e piece
    then {| appending := false;
            returnList := if appending st then (returnList st ++ [piece])%list
                          else returnList st |}
    else st in
  Return (if appending st
          then {| appending := true; returnList := (returnList st ++ [piece])%list |}
          else st).

(** The body of [for bline in fp]; only [UnicodeDecodeError] is caught. *)
Definition event_line (start_string endstring : list string) (st : event_state)
    (bline : option string) : result event_state :=
  match bline with
  | None => Return st
  | Some line =>
      for_each
        (fun st i => for_each (event_piece start_string endstring i) (split_lines line) st)
        (seq 0 (length start_string)) st
  end.

Definition event_search (start_string endstring : list string)
    (lines : list (option string)) : result (list string) :=
  st ← for_each (event_line start_string endstring) lines
         {| appending := false; returnList := [] |};
  Return (returnList st).




(** ** Example maps *)



(** ** Proof automation *)

Arguments prox_row : simpl never.
Arguments i2c_track : simpl never.

(** Projections of an updated sensor-pass state. *)
Ltac prox_proj :=
  cbn [with_prev_timestamp with_i2c with_prox_error_count with_tof
       with_logging_gap_errors with_ext_voltage
       prox_error_count prev_timestamp i2c_bus_error_start_time last_i2c_bus_error
       i2c_bus_errors tof_reading_start_time last_tof_reading stale_tof_readings
       logging_gap_errors ext_voltage_counter avg_ext_voltage].

(** * Proofs *)

(** ** The string functions on examples *)

Example split_example :
  str_split " " "a  b" = ["a"; EmptyString; "b"] /\ str_split " " EmptyString = [EmptyString].
Proof. split; reflexivity. Qed.

Example py_int_example :
  py_int " 1_000" = Some 1000 /\ py_int "-7" = Some (-7) /\
  py_int "1__0" = None /\ py_int EmptyString = None /\ py_int "abc" = None /\
  py_int (String "031"%char "123") = None /\ strip (String "031"%char "123") = "123".
Proof. repeat split; reflexivity. Qed.

Example hex_example :
  hex 0 = "0x0" /\ hex 256 = "0x100" /\ hex 65280 = "0xff00".
Proof. repeat split; reflexivity. Qed.

Example after_last_example :
  after_last "ab" "xabyabz" = Some "z" /\ after_last "q" "xab" = None.
Proof. split; reflexivity. Qed.


(** ** The exception monad and loops *)

Lemma bind_Return {A B : Type} (m : result A) (k : A -> result B) (b : B) :
  m ≫= k = Return b -> exists a, m = Return a /\ k a = Return b.
Proof. destruct m as [a|e]; simpl; [eauto | discriminate]. Qed.

Lemma bind_raises {A B : Type} (m : result A) (k : A -> result B) :
  raises m -> raises (m ≫= k).
Proof. intros [e ->]. exists e. reflexivity. Qed.

Lemma raises_not_Return {A : Type} (m : result A) (a : A) :
  raises m -> m <> Return a.
Proof. intros [e ->]. discriminate. Qed.

Lemma for_each_app {A S : Type} (body : S -> A -> result S) (l1 l2 : list A) (st : S) :
  for_each body (l1 ++ l2) st = for_each body l1 st ≫= for_each body l2.
Proof.
  revert st. induction l1 as [|x l1 IH]; intros st; simpl; [reflexivity|].
  destruct (body st x) as [st'|e]; simpl; [apply IH | reflexivity].
Qed.

(** An invariant kept by every iteration holds when the loop ends. *)
Lemma for_each_inv {A S : Type} (P : S -> Prop) (body : S -> A -> result S)
    (l : list A) (st st' : S) :
  (forall s x s', x ∈ l -> P s -> body s x = Return s' -> P s') ->
  P st -> for_each body l st = Return st' -> P st'.
Proof.
  revert st. induction l as [|x l IH]; intros st Hstep HP Hrun; simpl in Hrun.
  - injection Hrun as <-. exact HP.
  - apply bind_Return in Hrun as (s1 & H1 & H2).
    apply (IH s1); [| eapply Hstep; eauto; left | exact H2].
    intros s y s' Hy. apply Hstep. by right.
Qed.

(** An iteration that raises from every state aborts the loop. *)
Lemma for_each_raises {A S : Type} (body : S -> A -> result S) (l : list A) (x : A) :
  x ∈ l -> (forall s, raises (body s x)) -> forall st, raises (for_each body l st).
Proof.
  intros Hx Hbad. induction l as [|y l IH]; intros st; [by apply elem_of_nil in Hx|].
  simpl. apply elem_of_cons in Hx as [<- | Hx].
  - apply bind_raises, Hbad.
  - destruct (body st y) as [s1|e]; simpl; [by apply IH | by exists e].
Qed.

(** Case analysis on a rule that returned normally. *)
Ltac rule_cases H :=
  repeat match type of H with
  | (_ ≫= _) = Return _ => apply bind_Return in H as (? & ? & H)
  | Return _ = Return _ => injection H as <-
  | Raise _ = Return _ => discriminate H
  | context [if ?b then _ else _] => destruct b eqn:?
  | context [match ?d with Pattern _ => _ | Patterns _ => _ end] => destruct d
  end.

(** ** The line scan *)

Section LineScanFacts.

Variable py_float : string -> option Q.

(** The activity flag is never cleared. *)
Lemma count_if_in_fold_started line code ds st :
  cleaning_started (fold_left (count_if_in line code) ds st) = cleaning_started st.
Proof.
  revert st. induction ds as [|d ds IH]; intros st; simpl; [reflexivity|].
  rewrite IH. unfold count_if_in. by destruct (contains d line).
Qed.

(** What one rule may write into the counts: its own code, and the
    reset group when it is the reset rule. *)
Lemma reset_states_lookup states ec k :
  reset_states states ec !! k = if bool_decide (k ∈ states) then Some (VInt 0) else ec !! k.
Proof.
  unfold reset_states. revert ec.
  induction states as [|s states IH]; intros ec; cbn [fold_left].
  - by rewrite bool_decide_eq_false_2 by apply not_elem_of_nil.
  - rewrite IH. destruct (decide (k ∈ states)) as [Hin|Hin].
    + rewrite (bool_decide_eq_true_2 _ Hin).
      by rewrite bool_decide_eq_true_2 by (by right).
    + rewrite (bool_decide_eq_false_2 _ Hin).
      destruct (decide (k = s)) as [->|Hne].
      * rewrite lookup_insert_eq. by rewrite bool_decide_eq_true_2 by left.
      * rewrite lookup_insert_ne by done.
        rewrite bool_decide_eq_false_2; [done|].
        intros [?|?]%elem_of_cons; done.
Qed.

Lemma count_if_in_fold_frame line code ds st k :
  k <> code ->
  error_count (fold_left (count_if_in line code) ds st) !! k = error_count st !! k.
Proof.
  intros Hne. revert st. induction ds as [|d ds IH]; intros st; simpl; [reflexivity|].
  rewrite IH. unfold count_if_in, incr. destruct (contains d line); simpl; [|done].
  by rewrite lookup_insert_ne.
Qed.

Lemma log_msg_rule_frame cfg line st code desc st' k :
  log_msg_rule py_float cfg line st (code, desc) = Return st' ->
  k <> code ->
  error_count st' !! k = error_count st !! k
  \/ (k ∈ AUTONOMY_SUSPENDED_STATES cfg /\ error_count st' !! k = Some (VInt 0)).
Proof.
  intros Hrun Hne. unfold log_msg_rule in Hrun.
  set (st1 := if contains "new state = " line then _ else st) in Hrun.
  assert (Hst1 : error_count st1 = error_count st)
    by (subst st1; by destruct (contains _ line)).
  rewrite <- Hst1. clearbody st1. clear Hst1.
  rule_cases Hrun; simpl;
    rewrite ?count_if_in_fold_frame, ?reset_states_lookup by done;
    unfold incr; rewrite ?lookup_insert_ne by done; auto.
  case_bool_decide; [right | left]; done.
Qed.

Lemma log_msg_rule_started cfg line st rule st' :
  log_msg_rule py_float cfg line st rule = Return st' ->
  cleaning_started st = true -> cleaning_started st' = true.
Proof.
  destruct rule as [code desc]. intros Hrun Hst. unfold log_msg_rule in Hrun.
  set (st1 := if contains "new state = " line then _ else st) in Hrun.
  assert (Hst1 : cleaning_started st1 = true)
    by (subst st1; by destruct (contains _ line)).
  clearbody st1.
  rule_cases Hrun; simpl; rewrite ?count_if_in_fold_started; done.
Qed.

Lemma log_msg_rule_status_free cfg line st rule st' :
  no_status_codes cfg -> rule ∈ LOG_MSGS_ERRORS cfg ->
  log_msg_rule py_float cfg line st rule = Return st' ->
  status_free (error_count st) -> status_free (error_count st').
Proof.
  intros [Hrules Hstates] Hin Hrun Hfree k Hk. destruct rule as [code desc].
  rewrite Forall_forall in Hrules. specialize (Hrules _ Hin). simpl in Hrules.
  destruct (log_msg_rule_frame _ _ _ _ _ _ k Hrun) as [-> | [Hreset _]].
  - intros ->. congruence.
  - by apply Hfree.
  - rewrite Forall_forall in Hstates. specialize (Hstates _ Hreset). congruence.
Qed.

Lemma scan_line_status_free cfg st bline st' :
  no_status_codes cfg ->
  scan_line py_float cfg st bline = Return st' ->
  status_free (error_count st) -> status_free (error_count st').
Proof.
  intros Hcfg Hrun Hfree. destruct bline as [line|]; simpl in Hrun.
  - eapply (for_each_inv (fun s => status_free (error_count s))); [| |exact Hrun].
    + intros s rule s' Hin. intros; by eapply log_msg_rule_status_free.
    + by destruct (contains _ line).
  - by injection Hrun as <-.
Qed.

Lemma scan_lines_status_free cfg lines st st' :
  no_status_codes cfg ->
  scan_lines py_float cfg lines st = Return st' ->
  status_free (error_count st) -> status_free (error_count st').
Proof.
  intros Hcfg Hrun Hfree.
  eapply (for_each_inv (fun s => status_free (error_count s))); [|exact Hfree|exact Hrun].
  intros s bline s' _ Hs Hstep. by eapply scan_line_status_free.
Qed.

Lemma subtract_paused_time_lookup_ne ec k :
  k <> "TOTAL_PAUSED_TIME" -> k <> "TOTAL_CLEANING_TIME" ->
  subtract_paused_time ec !! k = ec !! k.
Proof.
  intros H1 H2. unfold subtract_paused_time.
  destruct (ec !! "TOTAL_PAUSED_TIME");
    rewrite lookup_insert_ne by done; [by rewrite lookup_delete_ne | done].
Qed.

Lemma status_free_lookups ec :
  status_free ec -> ec !! "PASS" = None /\ ec !! "FAIL" = None /\ ec !! "INVALID" = None.
Proof. intros H. repeat split; by apply H. Qed.

(** C1: when the scan of a run returns, finalization leaves exactly one
    status in the counts, with value 1: INVALID when the activity flag
    was never set (the flag is only ever set, see
    [log_msg_rule_started]); otherwise PASS when COMPLETE_CLEANING_RUN is
    a key of the counts and CANCEL_CLEANING_RUN is not, and FAIL in every
    other case. *)
Theorem finalize_assigns_one_status cfg ec0 lines st :
  no_status_codes cfg ->
  status_free ec0 ->
  scan_lines py_float cfg lines (scan_init ec0) = Return st ->
  let ec := error_count st in
  let ec' := error_count (finalize st) in
  search_for_log_msg_errors py_float cfg ec0 lines = Return (finalize st)
  /\ (cleaning_started st = false ->
        statuses ec' = ["INVALID"] /\ ec' !! "INVALID" = Some (VInt 1))
  /\ (cleaning_started st = true ->
        is_Some (ec !! "COMPLETE_CLEANING_RUN") -> ec !! "CANCEL_CLEANING_RUN" = None ->
        statuses ec' = ["PASS"] /\ ec' !! "PASS" = Some (VInt 1))
  /\ (cleaning_started st = true ->
        ~ (is_Some (ec !! "COMPLETE_CLEANING_RUN") /\ ec !! "CANCEL_CLEANING_RUN" = None) ->
        statuses ec' = ["FAIL"] /\ ec' !! "FAIL" = Some (VInt 1)).
Proof.
  intros Hcfg Hfree Hrun ec ec'.
  assert (Hec : status_free ec) by (by eapply scan_lines_status_free).
  apply status_free_lookups in Hec as (HP & HF & HI).
  split; [unfold search_for_log_msg_errors; by rewrite Hrun|].
  subst ec ec'. unfold finalize, statuses. simpl.
  rewrite !subtract_paused_time_lookup_ne by done.
  unfold set_status.
  split; [|split]; intros Hs; rewrite Hs; simpl.
  - rewrite lookup_insert_eq, !lookup_insert_ne, HP, HF by done. split; reflexivity.
  - intros Hc Hx.
    rewrite (bool_decide_eq_true_2 _ Hc), (bool_decide_eq_true_2 _ Hx). simpl.
    rewrite lookup_insert_eq, !lookup_insert_ne, HF, HI by done. split; reflexivity.
  - intros Hn.
    destruct (bool_decide _ && bool_decide _) eqn:Hb.
    { apply andb_true_iff in Hb as [?%bool_decide_eq_true ?%bool_decide_eq_true]. tauto. }
    rewrite lookup_insert_eq, !lookup_insert_ne, HP, HI by done. split; reflexivity.
Qed.
End LineScanFacts.

Section LineScanValues.

Variable py_float : string -> option Q.

(** A rule whose pattern is not on the line, or that is filed under
    another code, leaves the entry of [k] alone, the reset group apart. *)
Lemma log_msg_rule_keeps cfg line st code desc st' k :
  log_msg_rule py_float cfg line st (code, desc) = Return st' ->
  k <> "CANCEL_CLEANING_RUN" ->
  k ∉ AUTONOMY_SUSPENDED_STATES cfg ->
  (forall d, code = k -> desc = Pattern d -> contains d line = false) ->
  error_count st' !! k = error_count st !! k.
Proof.
  intros Hrun Hk Hstates Hmiss. destruct (decide (k = code)) as [->|Hne].
  - unfold log_msg_rule in Hrun.
    rewrite (proj2 (String.eqb_neq _ _) Hk) in Hrun.
    destruct desc as [d|ds]; [|discriminate].
    rewrite (Hmiss d eq_refl eq_refl) in Hrun. injection Hrun as <-.
    by destruct (contains _ line).
  - by destruct (log_msg_rule_frame py_float _ _ _ _ _ _ k Hrun Hne) as [-> | [? _]].
Qed.

Lemma scan_line_keeps cfg st line st' k :
  scan_line py_float cfg st (Some line) = Return st' ->
  k <> "CANCEL_CLEANING_RUN" ->
  k ∉ AUTONOMY_SUSPENDED_STATES cfg ->
  (forall d, (k, Pattern d) ∈ LOG_MSGS_ERRORS cfg -> contains d line = false) ->
  error_count st' !! k = error_count st !! k.
Proof.
  intros Hrun Hk Hstates Hmiss. simpl in Hrun.
  eapply (for_each_inv (fun s => error_count s !! k = error_count st !! k));
    [| |exact Hrun].
  - intros s [code desc] s' Hin <- Hstep.
    eapply log_msg_rule_keeps; eauto. intros d -> ->. by apply Hmiss.
  - by destruct (contains _ line).
Qed.

Lemma scan_lines_keeps cfg lines st st' k :
  scan_lines py_float cfg lines st = Return st' ->
  k <> "CANCEL_CLEANING_RUN" ->
  k ∉ AUTONOMY_SUSPENDED_STATES cfg ->
  ~ seen cfg k lines ->
  error_count st' !! k = error_count st !! k.
Proof.
  intros Hrun Hk Hstates Hunseen.
  eapply (for_each_inv (fun s => error_count s !! k = error_count st !! k));
    [|reflexivity|exact Hrun].
  intros s [line|] s' Hin <- Hstep; [|by injection Hstep as <-].
  eapply scan_line_keeps; eauto. intros d Hd.
  destruct (contains d line) eqn:Hc; [|done].
  exfalso. apply Hunseen. by exists line, d.
Qed.

(** Without a matching line the entry of [k] is missing or a reset [0]. *)
Lemma log_msg_rule_unset_or_zero cfg line st code desc st' k :
  log_msg_rule py_float cfg line st (code, desc) = Return st' ->
  k <> "CANCEL_CLEANING_RUN" ->
  (forall d, code = k -> desc = Pattern d -> contains d line = false) ->
  error_count st !! k = None \/ error_count st !! k = Some (VInt 0) ->
  error_count st' !! k = None \/ error_count st' !! k = Some (VInt 0).
Proof.
  intros Hrun Hk Hmiss Hold. destruct (decide (k = code)) as [->|Hne].
  - unfold log_msg_rule in Hrun.
    rewrite (proj2 (String.eqb_neq _ _) Hk) in Hrun.
    destruct desc as [d|ds]; [|discriminate].
    rewrite (Hmiss d eq_refl eq_refl) in Hrun. injection Hrun as <-.
    by destruct (contains _ line).
  - destruct (log_msg_rule_frame py_float _ _ _ _ _ _ k Hrun Hne) as [-> | [_ ->]]; auto.
Qed.

Lemma scan_lines_unset_or_zero cfg lines st st' k :
  scan_lines py_float cfg lines st = Return st' ->
  k <> "CANCEL_CLEANING_RUN" ->
  ~ seen cfg k lines ->
  error_count st !! k = None \/ error_count st !! k = Some (VInt 0) ->
  error_count st' !! k = None \/ error_count st' !! k = Some (VInt 0).
Proof.
  intros Hrun Hk Hunseen Hold.
  eapply (for_each_inv
            (fun s => error_count s !! k = None \/ error_count s !! k = Some (VInt 0)));
    [|exact Hold|exact Hrun].
  intros s [line|] s' Hin Hs Hstep; [|by injection Hstep as <-].
  simpl in Hstep.
  eapply (for_each_inv
            (fun s => error_count s !! k = None \/ error_count s !! k = Some (VInt 0)));
    [| |exact Hstep].
  - intros s1 [code desc] s2 Hrule Hs1 Hstep1.
    eapply log_msg_rule_unset_or_zero; eauto. intros d -> ->.
    destruct (contains d line) eqn:Hc; [|done].
    exfalso. apply Hunseen. by exists line, d.
  - by destruct (contains _ line).
Qed.

(** A paused-time line stores its trailing number, and the rest of the
    rules on that line leave it there. *)
Lemma log_msg_rule_sets_paused cfg line st code desc st' p :
  log_msg_rule py_float cfg line st (code, desc) = Return st' ->
  "TOTAL_PAUSED_TIME" ∉ AUTONOMY_SUSPENDED_STATES cfg ->
  py_float (trailing_token line) = Some p ->
  (error_count st !! "TOTAL_PAUSED_TIME" = Some (VFloat p)
   \/ exists d, (code, desc) = ("TOTAL_PAUSED_TIME", Pattern d) /\ contains d line = true) ->
  error_count st' !! "TOTAL_PAUSED_TIME" = Some (VFloat p).
Proof.
  intros Hrun Hstates Hp Hcase.
  destruct (decide (code = "TOTAL_PAUSED_TIME")) as [->|Hne].
  - unfold log_msg_rule in Hrun. simpl in Hrun.
    destruct desc as [d|ds]; [|discriminate].
    destruct (contains d line) eqn:Hc.
    + rewrite Hp in Hrun. simpl in Hrun. injection Hrun as <-. simpl.
      apply lookup_insert_eq.
    + injection Hrun as <-. destruct Hcase as [Hold | (d' & [= ->] & ?)]; [|congruence].
      by destruct (contains "new state = " line).
  - destruct Hcase as [Hold | (d & [= -> _] & _)]; [|done].
    rewrite <- Hold.
    apply (log_msg_rule_keeps cfg line st code desc st'); [exact Hrun|done|exact Hstates|].
    by intros d ->.
Qed.

Lemma for_each_rules_sets_paused cfg line rules st st' p :
  for_each (log_msg_rule py_float cfg line) rules st = Return st' ->
  "TOTAL_PAUSED_TIME" ∉ AUTONOMY_SUSPENDED_STATES cfg ->
  py_float (trailing_token line) = Some p ->
  (error_count st !! "TOTAL_PAUSED_TIME" = Some (VFloat p)
   \/ exists d, ("TOTAL_PAUSED_TIME", Pattern d) ∈ rules /\ contains d line = true) ->
  error_count st' !! "TOTAL_PAUSED_TIME" = Some (VFloat p).
Proof.
  intros Hrun Hstates Hp. revert st Hrun.
  induction rules as [|[code desc] rules IH]; intros st Hrun Hcase; simpl in Hrun.
  - injection Hrun as <-. destruct Hcase as [|(d & []%elem_of_nil & _)]; done.
  - apply bind_Return in Hrun as (s1 & H1 & H2). apply (IH s1 H2).
    destruct Hcase as [Hold | (d & [Heq|Hin]%elem_of_cons & Hc)].
    + left. apply (log_msg_rule_sets_paused cfg line st code desc s1 p H1 Hstates Hp).
      by left.
    + left. apply (log_msg_rule_sets_paused cfg line st code desc s1 p H1 Hstates Hp).
      right. by exists d.
    + right. eauto.
Qed.

End LineScanValues.

Section LineScanClaims.

Variable py_float : string -> option Q.

Lemma Qminus_0_l (p : Q) : (inject_Z 0 - p)%Q = (- p)%Q.
Proof.
  destruct p as [n d]. unfold Qminus, Qplus, Qopp, inject_Z. simpl.
  by rewrite Z.mul_1_r.
Qed.

Lemma set_status_lookup_ne started ec k :
  is_status k = false -> set_status started ec !! k = ec !! k.
Proof.
  intros Hk. unfold set_status.
  assert (k <> "INVALID" /\ k <> "PASS" /\ k <> "FAIL") as (? & ? & ?).
  { repeat split; intros ->; discriminate. }
  destruct (negb started); [by rewrite lookup_insert_ne|].
  destruct (_ && _); by rewrite lookup_insert_ne.
Qed.

Lemma subtract_paused_time_paused ec :
  subtract_paused_time ec !! "TOTAL_PAUSED_TIME" = None.
Proof.
  unfold subtract_paused_time.
  destruct (ec !! "TOTAL_PAUSED_TIME") eqn:Hp; rewrite lookup_insert_ne by done;
    [apply lookup_delete_eq | done].
Qed.

Lemma subtract_paused_time_cleaning ec :
  subtract_paused_time ec !! "TOTAL_CLEANING_TIME"
  = Some (py_sub (get ec "TOTAL_CLEANING_TIME") (get ec "TOTAL_PAUSED_TIME")).
Proof.
  unfold subtract_paused_time, get.
  destruct (ec !! "TOTAL_PAUSED_TIME") eqn:Hp; rewrite lookup_insert_eq; [|done].
  by rewrite lookup_delete_ne.
Qed.

(** The two entries finalization rewrites, from the counts at the end
    of the stream. *)
Lemma finalize_times st :
  error_count (finalize st) !! "TOTAL_PAUSED_TIME" = None
  /\ error_count (finalize st) !! "TOTAL_CLEANING_TIME"
     = Some (py_sub (get (error_count st) "TOTAL_CLEANING_TIME")
                    (get (error_count st) "TOTAL_PAUSED_TIME")).
Proof.
  unfold finalize. simpl. split; [apply subtract_paused_time_paused|].
  rewrite subtract_paused_time_cleaning. unfold get.
  by rewrite !set_status_lookup_ne.
Qed.

Lemma search_Return cfg ec0 lines st' :
  search_for_log_msg_errors py_float cfg ec0 lines = Return st' ->
  exists st, scan_lines py_float cfg lines (scan_init ec0) = Return st /\ st' = finalize st.
Proof.
  unfold search_for_log_msg_errors. intros (st & Hscan & [= <-])%bind_Return. eauto.
Qed.

(** C10: after finalization the counts hold no TOTAL_PAUSED_TIME entry
    and always hold a TOTAL_CLEANING_TIME entry.  That entry is [0] for
    the empty line sequence and whenever no cleaning-time and no
    paused-time line was seen; when only paused-time lines were seen it
    is the negated value of the last of them. *)
Theorem finalize_cleaning_time cfg :
  (exists st0, search_for_log_msg_errors py_float cfg ∅ [] = Return st0
     /\ error_count st0 !! "TOTAL_PAUSED_TIME" = None
     /\ error_count st0 !! "TOTAL_CLEANING_TIME" = Some (VInt 0))
  /\ forall lines st',
      search_for_log_msg_errors py_float cfg ∅ lines = Return st' ->
      error_count st' !! "TOTAL_PAUSED_TIME" = None
      /\ is_Some (error_count st' !! "TOTAL_CLEANING_TIME")
      /\ (~ seen cfg "TOTAL_CLEANING_TIME" lines ->
          ~ seen cfg "TOTAL_PAUSED_TIME" lines ->
          error_count st' !! "TOTAL_CLEANING_TIME" = Some (VInt 0))
      /\ (forall before line after p,
            lines = (before ++ Some line :: after)%list ->
            ~ seen cfg "TOTAL_CLEANING_TIME" lines ->
            seen cfg "TOTAL_PAUSED_TIME" [Some line] ->
            ~ seen cfg "TOTAL_PAUSED_TIME" after ->
            "TOTAL_PAUSED_TIME" ∉ AUTONOMY_SUSPENDED_STATES cfg ->
            py_float (trailing_token line) = Some p ->
            error_count st' !! "TOTAL_CLEANING_TIME" = Some (VFloat (- p))).
Proof.
  split.
  { eexists. split; [reflexivity|]. split; reflexivity. }
  intros lines st' (st & Hscan & ->)%search_Return.
  destruct (finalize_times st) as [Hp Hc]. rewrite Hp, Hc.
  split; [done|]. split; [done|]. split.
  - intros Hnc Hnp.
    pose proof (scan_lines_unset_or_zero py_float _ _ _ _ "TOTAL_CLEANING_TIME"
                  Hscan ltac:(done) Hnc ltac:(by left)) as Hc0.
    pose proof (scan_lines_unset_or_zero py_float _ _ _ _ "TOTAL_PAUSED_TIME"
                  Hscan ltac:(done) Hnp ltac:(by left)) as Hp0.
    unfold get. by destruct Hc0 as [-> | ->], Hp0 as [-> | ->].
  - intros before line after p -> Hnc (l & d & Hl & Hd & Hin) Hafter Hstates Hparse.
    apply list_elem_of_singleton in Hl as [= <-].
    pose proof (scan_lines_unset_or_zero py_float _ _ _ _ "TOTAL_CLEANING_TIME"
                  Hscan ltac:(done) Hnc ltac:(by left)) as Hc0.
    unfold scan_lines in Hscan. rewrite for_each_app in Hscan.
    apply bind_Return in Hscan as (s1 & _ & Hscan). simpl in Hscan.
    apply bind_Return in Hscan as (s2 & Hline & Hrest).
    assert (Hs2 : error_count s2 !! "TOTAL_PAUSED_TIME" = Some (VFloat p)).
    { eapply for_each_rules_sets_paused; eauto. }
    assert (Hst : error_count st !! "TOTAL_PAUSED_TIME" = Some (VFloat p)).
    { rewrite <- Hs2. by eapply scan_lines_keeps. }
    unfold get. rewrite Hst. simpl.
    destruct Hc0 as [-> | ->]; simpl; by rewrite Qminus_0_l.
Qed.

(** *** The composite cancel rule *)

Lemma get_incr ec k n : get ec k = VInt n -> get (incr ec k) k = VInt (n + 1).
Proof. intros H. unfold incr, get at 1. rewrite lookup_insert_eq. simpl. by rewrite H. Qed.

Lemma count_if_in_fold_count line code ds st n :
  get (error_count st) code = VInt n ->
  get (error_count (fold_left (count_if_in line code) ds st)) code
  = VInt (n + Z.of_nat (length (List.filter (fun d => contains d line) ds))).
Proof.
  revert st n. induction ds as [|d ds IH]; intros st n Hn; simpl.
  - by rewrite Z.add_0_r.
  - unfold count_if_in at 2. destruct (contains d line).
    + erewrite IH; [|simpl; by apply get_incr]. simpl length. f_equal. lia.
    + by apply IH.
Qed.

Lemma log_msg_rule_cancel_count cfg line st rule st' n :
  log_msg_rule py_float cfg line st rule = Return st' ->
  "CANCEL_CLEANING_RUN" ∉ AUTONOMY_SUSPENDED_STATES cfg ->
  get (error_count st) "CANCEL_CLEANING_RUN" = VInt n ->
  get (error_count st') "CANCEL_CLEANING_RUN" = VInt (n + cancel_hits line rule).
Proof.
  destruct rule as [code desc]. intros Hrun Hstates Hn. unfold cancel_hits. simpl.
  destruct (String.eqb code "CANCEL_CLEANING_RUN") eqn:Hcode.
  - apply String.eqb_eq in Hcode as ->. unfold log_msg_rule in Hrun. simpl in Hrun.
    injection Hrun as <-. apply count_if_in_fold_count.
    by destruct (contains "new state = " line).
  - apply String.eqb_neq in Hcode. rewrite Z.add_0_r, <- Hn. unfold get.
    destruct (log_msg_rule_frame py_float _ _ _ _ _ _ "CANCEL_CLEANING_RUN" Hrun)
      as [-> | [? _]]; done.
Qed.

Lemma scan_line_cancel_count cfg st bline st' n :
  scan_line py_float cfg st bline = Return st' ->
  "CANCEL_CLEANING_RUN" ∉ AUTONOMY_SUSPENDED_STATES cfg ->
  get (error_count st) "CANCEL_CLEANING_RUN" = VInt n ->
  get (error_count st') "CANCEL_CLEANING_RUN" = VInt (n + line_cancel_hits cfg bline).
Proof.
  intros Hrun Hstates Hn. destruct bline as [line|]; simpl in *.
  - set (s0 := if contains _ line then _ else st) in Hrun.
    assert (H0 : get (error_count s0) "CANCEL_CLEANING_RUN" = VInt n)
      by (subst s0; by destruct (contains _ line)).
    clearbody s0. clear Hn. revert s0 n H0 Hrun.
    induction (LOG_MSGS_ERRORS cfg) as [|rule rules IH]; intros s0 n H0 Hrun; simpl in *.
    + injection Hrun as <-. by rewrite Z.add_0_r.
    + apply bind_Return in Hrun as (s1 & H1 & H2).
      rewrite Z.add_assoc. apply (IH s1); [|done].
      by eapply log_msg_rule_cancel_count.
  - injection Hrun as <-. by rewrite Z.add_0_r.
Qed.

Lemma scan_lines_cancel_count cfg lines st st' n :
  scan_lines py_float cfg lines st = Return st' ->
  "CANCEL_CLEANING_RUN" ∉ AUTONOMY_SUSPENDED_STATES cfg ->
  get (error_count st) "CANCEL_CLEANING_RUN" = VInt n ->
  get (error_count st') "CANCEL_CLEANING_RUN" = VInt (n + total_cancel_hits cfg lines).
Proof.
  intros Hrun Hstates. revert st n Hrun. unfold scan_lines, total_cancel_hits.
  induction lines as [|bline lines IH]; intros st n Hrun Hn; simpl in *.
  - injection Hrun as <-. by rewrite Z.add_0_r.
  - apply bind_Return in Hrun as (s1 & H1 & H2).
    rewrite Z.add_assoc. apply (IH s1); [done|].
    by eapply scan_line_cancel_count.
Qed.

(** C6: the cancel count of a run is the number of (line, pattern)
    pairs with the pattern on the line: a line is counted once for each
    of the rule's patterns it contains. *)
Theorem cancel_counts_every_pattern cfg lines st :
  search_for_log_msg_errors py_float cfg ∅ lines = Return st ->
  "CANCEL_CLEANING_RUN" ∉ AUTONOMY_SUSPENDED_STATES cfg ->
  get (error_count st) "CANCEL_CLEANING_RUN" = VInt (total_cancel_hits cfg lines).
Proof.
  intros (s & Hscan & ->)%search_Return Hstates.
  unfold finalize, get. simpl.
  rewrite subtract_paused_time_lookup_ne, set_status_lookup_ne by done.
  by apply (scan_lines_cancel_count _ _ _ _ 0 Hscan).
Qed.

(** *** Unparsable captured tokens *)

Lemma log_msg_rule_capture_raises cfg line code d :
  contains d line = true -> capture_fails py_float code line ->
  forall st, raises (log_msg_rule py_float cfg line st (code, Pattern d)).
Proof.
  intros Hd Hfail st. unfold log_msg_rule.
  destruct Hfail as [[[-> | ->] Hnone] | [[-> | ->] [e He]]]; simpl;
    rewrite Hd, ?Hnone; simpl.
  - by exists ValueError.
  - by exists ValueError.
  - exists e. revert He. unfold mbind at 1 3, result_bind.
    destruct (timestamp_token line); simpl; [|congruence].
    destruct (py_int a); simpl; congruence.
  - exists e. revert He. unfold mbind at 1 3, result_bind.
    destruct (timestamp_token line); simpl; [|congruence].
    destruct (py_int a); simpl; congruence.
Qed.

(** C3, as the code has it: a line whose captured numeric token does not
    parse makes the scan raise; the exception is not caught, so the run
    gets no counts and no status. *)
Theorem unparsable_capture_raises cfg ec0 lines line code d :
  Some line ∈ lines ->
  (code, Pattern d) ∈ LOG_MSGS_ERRORS cfg ->
  contains d line = true ->
  capture_fails py_float code line ->
  raises (search_for_log_msg_errors py_float cfg ec0 lines).
Proof.
  intros Hline Hrule Hd Hfail. unfold search_for_log_msg_errors.
  apply bind_raises. unfold scan_lines.
  apply (for_each_raises _ _ (Some line) Hline). intros st. simpl.
  apply (for_each_raises _ _ (code, Pattern d) Hrule).
  by apply log_msg_rule_capture_raises.
Qed.

End LineScanClaims.

(** *** The line scan on concrete runs *)

(** C1 on a run that starts, completes and is not cancelled. *)
Example finalize_assigns_one_status_witness :
  no_status_codes line_scan_cfg /\ status_free ∅ /\
  exists st,
    scan_lines float_of_literal line_scan_cfg passing_run (scan_init ∅) = Return st
    /\ cleaning_started st = true
    /\ statuses (error_count (finalize st)) = ["PASS"]
    /\ error_count (finalize st) !! "PASS" = Some (VInt 1).
Proof.
  assert (Hcfg : no_status_codes line_scan_cfg) by (split; repeat constructor).
  assert (Hfree : status_free ∅) by (intros k _; apply lookup_empty).
  split; [exact Hcfg|]. split; [exact Hfree|].
  eexists. split; [vm_compute; reflexivity|]. split; [reflexivity|].
  eapply (finalize_assigns_one_status float_of_literal line_scan_cfg ∅ passing_run);
    [exact Hcfg | exact Hfree | vm_compute; reflexivity | reflexivity
     | vm_compute; eauto | reflexivity].
Defined.

(** C6 on the two scenarios of the claim: two patterns on two lines,
    and both patterns on one line, count 2 each. *)
Example cancel_counts_every_pattern_witness :
  ("CANCEL_CLEANING_RUN" ∉ AUTONOMY_SUSPENDED_STATES line_scan_cfg)
  /\ (exists st,
        search_for_log_msg_errors float_of_literal line_scan_cfg ∅ cancel_on_two_lines
        = Return st
        /\ get (error_count st) "CANCEL_CLEANING_RUN" = VInt 2)
  /\ (exists st,
        search_for_log_msg_errors float_of_literal line_scan_cfg ∅ cancel_on_one_line
        = Return st
        /\ get (error_count st) "CANCEL_CLEANING_RUN" = VInt 2).
Proof.
  assert (Hstates : "CANCEL_CLEANING_RUN" ∉ AUTONOMY_SUSPENDED_STATES line_scan_cfg)
    by apply not_elem_of_nil.
  split; [exact Hstates|].
  split.
  - eexists. split; [vm_compute; reflexivity|].
    apply (cancel_counts_every_pattern float_of_literal line_scan_cfg cancel_on_two_lines);
      [vm_compute; reflexivity | exact Hstates].
  - eexists. split; [vm_compute; reflexivity|].
    apply (cancel_counts_every_pattern float_of_literal line_scan_cfg cancel_on_one_line);
      [vm_compute; reflexivity | exact Hstates].
Defined.

(** C10 on a run with one paused-time line and no cleaning-time line. *)
Example finalize_cleaning_time_witness :
  exists st,
    search_for_log_msg_errors float_of_literal line_scan_cfg ∅ paused_only_run = Return st
    /\ error_count st !! "TOTAL_PAUSED_TIME" = None
    /\ error_count st !! "TOTAL_CLEANING_TIME" = Some (VFloat (- inject_Z 12)).
Proof.
  eexists. split; [vm_compute; reflexivity|].
  destruct (proj2 (finalize_cleaning_time float_of_literal line_scan_cfg)
              paused_only_run _ ltac:(vm_compute; reflexivity))
    as (Hpaused & _ & _ & Hneg).
  split; [exact Hpaused|].
  apply (Hneg [Some "Start MAPPING"] "50 total paused time 12" [] (inject_Z 12)).
  - reflexivity.
  - intros (line & d & Hline & Hrule & Hd).
    apply list_elem_of_In in Hrule, Hline. simpl in Hrule, Hline.
    destruct Hrule as [Hr|[Hr|[Hr|[Hr|[Hr|[]]]]]]; try discriminate Hr.
    injection Hr as <-.
    destruct Hline as [Hl|[Hl|[]]]; injection Hl as <-; discriminate Hd.
  - exists "50 total paused time 12", "total paused time".
    split; [by left|]. split; [|reflexivity]. repeat constructor.
  - by intros (line & d & []%elem_of_nil & _).
  - apply not_elem_of_nil.
  - reflexivity.
Defined.

(** C3 fails on the code: an unparsable trailing token raises
    ValueError out of the scan; no status is assigned. *)
Example unparsable_token_aborts_scan :
  search_for_log_msg_errors float_of_literal line_scan_cfg ∅ unparsable_run
  = Raise ValueError
  /\ ~ exists st,
        search_for_log_msg_errors float_of_literal line_scan_cfg ∅ unparsable_run
        = Return st
        /\ statuses (error_count st) = ["INVALID"].
Proof.
  split; [reflexivity|]. intros (st & Hrun & _). discriminate Hrun.
Qed.

(** C3, amended, on the run of the counterexample. *)
Example unparsable_capture_raises_witness :
  Some "98 total cleaning time abc" ∈ unparsable_run
  /\ ("TOTAL_CLEANING_TIME", Pattern "total cleaning time") ∈ LOG_MSGS_ERRORS line_scan_cfg
  /\ contains "total cleaning time" "98 total cleaning time abc" = true
  /\ capture_fails float_of_literal "TOTAL_CLEANING_TIME" "98 total cleaning time abc"
  /\ raises (search_for_log_msg_errors float_of_literal line_scan_cfg ∅ unparsable_run).
Proof.
  assert (H1 : Some "98 total cleaning time abc" ∈ unparsable_run)
    by repeat constructor.
  assert (H2 : ("TOTAL_CLEANING_TIME", Pattern "total cleaning time")
               ∈ LOG_MSGS_ERRORS line_scan_cfg) by repeat constructor.
  assert (H4 : capture_fails float_of_literal "TOTAL_CLEANING_TIME"
                 "98 total cleaning time abc") by (left; split; [by left | reflexivity]).
  repeat split; try assumption.
  exact (unparsable_capture_raises float_of_literal line_scan_cfg ∅ unparsable_run
           _ _ _ H1 H2 eq_refl H4).
Defined.

(** ** The sensor pass *)

Lemma bus_row_time time code :
  row_int (bus_row time code) "TimeInMS" = of_option ValueError (py_int time).
Proof. unfold row_int, row_get, bus_row. by rewrite lookup_insert_eq. Qed.

Lemma bus_row_code time code :
  row_int (bus_row time code) "tof_code" = of_option ValueError (py_int code).
Proof.
  unfold row_int, row_get, bus_row.
  rewrite lookup_insert_ne by done. by rewrite lookup_singleton_eq.
Qed.

(** One row of a stream under [bus_cfg]: only the bus-error tracker runs. *)
Lemma prox_row_bus base num_rows st i time code t a :
  py_int time = Some t -> py_int code = Some a ->
  prox_row bus_cfg base num_rows st (i, bus_row time code)
  = Return (with_prev_timestamp t
              (i2c_track "TOF_SENSOR_ERRORS" (i =? num_rows - 1) t
                 (match TOF_ERROR_CODES bus_cfg !! hex (Z.land 65280 a) with
                  | Some (label, _) => Some label
                  | None => None
                  end) st)).
Proof.
  intros Ht Ha. unfold prox_row. rewrite bus_row_time, Ht. simpl.
  unfold tof_error_reading. simpl. rewrite bus_row_code, Ha. simpl.
  reflexivity.
Qed.


(** The three moves of the bus-error tracker. *)
Lemma i2c_track_skip code t cur st :
  last_i2c_bus_error st = cur -> i2c_track code false t cur st = st.
Proof.
  intros <-. unfold i2c_track. by rewrite bool_decide_eq_true_2.
Qed.

Lemma i2c_track_open code last_row t label st :
  last_i2c_bus_error st <> Some label \/ last_row = true ->
  i2c_bus_error_start_time st < 0 ->
  i2c_track code last_row t (Some label) st
  = with_i2c t (Some label) (i2c_bus_errors st)
      (with_prox_error_count (incr (prox_error_count st) code) st).
Proof.
  intros Hchange Hstart. unfold i2c_track.
  case_bool_decide as Heq; cbn [negb orb].
  all: try (destruct Hchange as [Hne | ->]; [done|]).
  all: rewrite (proj2 (Z.ltb_ge 0 _)) by lia.
  all: rewrite (proj2 (Z.ltb_lt _ 0)) by lia.
  all: by rewrite bool_decide_eq_true_2.
Qed.

Lemma i2c_track_close code last_row t st :
  last_i2c_bus_error st <> None \/ last_row = true ->
  0 < i2c_bus_error_start_time st ->
  i2c_track code last_row t None st
  = with_i2c (-1) None
      (<[i2c_bus_error_start_time st :=
           (last_i2c_bus_error st, t - i2c_bus_error_start_time st)]>
         (i2c_bus_errors st)) st.
Proof.
  intros Hchange Hstart. unfold i2c_track.
  case_bool_decide as Heq; cbn [negb orb].
  all: try (destruct Hchange as [Hne | ->]; [done|]).
  all: rewrite (proj2 (Z.ltb_lt 0 _)) by lia.
  all: cbn [i2c_bus_error_start_time with_i2c].
  all: rewrite bool_decide_eq_false_2 by (by intros [? ?]).
  all: by rewrite andb_false_r.
Qed.


(** The tracker on the label sequence A, A, B, B, A with a positive first
    timestamp: the first interval is closed on the first row whose label
    differs, with the duration up to that row; the label seen again on
    the last row opens a second interval, which is left open, and brings
    the trigger counter to 2. *)
Lemma bus_tracker_closes_on_label_change (s0 s1 s2 s3 s4 : string)
    (t0 t1 t2 t3 t4 base : Z) :
  py_int s0 = Some t0 -> py_int s1 = Some t1 -> py_int s2 = Some t2 ->
  py_int s3 = Some t3 -> py_int s4 = Some t4 ->
  0 < t0 ->
  exists st,
    search_for_prox_reading_errors bus_cfg ∅ base
      [bus_row s0 "256"; bus_row s1 "256"; bus_row s2 "512"; bus_row s3 "512";
       bus_row s4 "256"] = Return st
    /\ i2c_bus_errors st !! t0 = Some (Some "ERR1", t2 - t0)
    /\ i2c_bus_error_start_time st = t4
    /\ get (prox_error_count st) "TOF_SENSOR_ERRORS" = VInt 2.
Proof.
  intros H0 H1 H2 H3 H4 Hpos.
  unfold search_for_prox_reading_errors.
  change (prox_init bus_cfg ∅) with
    (Return {| prox_error_count := ∅; prev_timestamp := -1;
               i2c_bus_error_start_time := -1; last_i2c_bus_error := None;
               i2c_bus_errors := ∅; tof_reading_start_time := ∅;
               last_tof_reading := ∅; stale_tof_readings := ∅;
               logging_gap_errors := []; ext_voltage_counter := 0;
               avg_ext_voltage := 0 |}).
  cbn [mbind result_bind enumerate enumerate_from length for_each Z.of_nat].
  rewrite (prox_row_bus _ _ _ _ s0 "256" t0 256 H0 eq_refl).
  change (match TOF_ERROR_CODES bus_cfg !! hex (Z.land 65280 256) with
          | Some (label, _) => Some label | None => None end) with (Some "ERR1").
  rewrite i2c_track_open by (prox_proj; (by left) || lia). prox_proj.
  cbn [mbind result_bind for_each].
  rewrite (prox_row_bus _ _ _ _ s1 "256" t1 256 H1 eq_refl).
  change (match TOF_ERROR_CODES bus_cfg !! hex (Z.land 65280 256) with
          | Some (label, _) => Some label | None => None end) with (Some "ERR1").
  change (0 + 1 =? _) with false.
  rewrite i2c_track_skip by reflexivity. prox_proj.
  cbn [mbind result_bind for_each].
  rewrite (prox_row_bus _ _ _ _ s2 "512" t2 512 H2 eq_refl).
  change (match TOF_ERROR_CODES bus_cfg !! hex (Z.land 65280 512) with
          | Some (label, _) => Some label | None => None end) with (@None string).
  rewrite i2c_track_close by (prox_proj; (by left) || lia). prox_proj.
  cbn [mbind result_bind for_each].
  rewrite (prox_row_bus _ _ _ _ s3 "512" t3 512 H3 eq_refl).
  change (match TOF_ERROR_CODES bus_cfg !! hex (Z.land 65280 512) with
          | Some (label, _) => Some label | None => None end) with (@None string).
  change (0 + 1 + 1 + 1 =? _) with false.
  rewrite i2c_track_skip by reflexivity. prox_proj.
  cbn [mbind result_bind for_each].
  rewrite (prox_row_bus _ _ _ _ s4 "256" t4 256 H4 eq_refl).
  change (match TOF_ERROR_CODES bus_cfg !! hex (Z.land 65280 256) with
          | Some (label, _) => Some label | None => None end) with (Some "ERR1").
  rewrite i2c_track_open by (prox_proj; (by left) || lia). prox_proj.
  cbn [mbind result_bind for_each].
  eexists. split; [reflexivity|]. prox_proj.
  split; [apply lookup_insert_eq|]. split; reflexivity.
Qed.

(** What the flush at the last row does reach: an interval with a
    positive start is recorded with the duration up to the last row. *)
Lemma i2c_track_last_row code t cur st :
  0 < i2c_bus_error_start_time st ->
  i2c_bus_errors (i2c_track code true t cur st) !! i2c_bus_error_start_time st
  = Some (last_i2c_bus_error st, t - i2c_bus_error_start_time st).
Proof.
  intros Hstart. unfold i2c_track. rewrite orb_true_r.
  rewrite (proj2 (Z.ltb_lt 0 _)) by lia.
  destruct (_ && _); prox_proj; apply lookup_insert_eq.
Qed.

(** The same sequence at the timestamps 10, 20, 30, 40, 50. *)
Example bus_tracker_closes_on_label_change_witness :
  0 < 10 /\
  exists st,
    search_for_prox_reading_errors bus_cfg ∅ 0
      [bus_row "10" "256"; bus_row "20" "256"; bus_row "30" "512"; bus_row "40" "512";
       bus_row "50" "256"] = Return st
    /\ i2c_bus_errors st !! 10 = Some (Some "ERR1", 20)
    /\ i2c_bus_error_start_time st = 50
    /\ get (prox_error_count st) "TOF_SENSOR_ERRORS" = VInt 2.
Proof.
  split; [lia|].
  apply (bus_tracker_closes_on_label_change "10" "20" "30" "40" "50" 10 20 30 40 50 0);
    reflexivity || lia.
Defined.

(** C4 on the code, at the codes and timestamps of the claim: the
    interval opened at timestamp 0 has start 0, which passes neither the
    test [i2c_bus_error_start_time > 0] that closes an interval nor the
    test [i2c_bus_error_start_time < 0] that opens one (the unset start
    is -1), so nothing is recorded and the trigger counter stays at 1.
    The same codes at the timestamps 10, 20, 30, 40, 50 give what the
    tracker is written to give: the interval (10, ERR1, 20), a second
    interval opened at 50 and the trigger counter 2. *)
Theorem bus_tracker_at_timestamp_zero :
  (exists st,
     search_for_prox_reading_errors bus_cfg ∅ 0
       [bus_row "0" "256"; bus_row "10" "256"; bus_row "20" "512"; bus_row "30" "512";
        bus_row "40" "256"] = Return st
     /\ i2c_bus_errors st = ∅
     /\ i2c_bus_error_start_time st = 0
     /\ get (prox_error_count st) "TOF_SENSOR_ERRORS" = VInt 1)
  /\ (exists st,
        search_for_prox_reading_errors bus_cfg ∅ 0
          [bus_row "10" "256"; bus_row "20" "256"; bus_row "30" "512";
           bus_row "40" "512"; bus_row "50" "256"] = Return st
        /\ i2c_bus_errors st = {[ 10 := (Some "ERR1", 20) ]}
        /\ i2c_bus_error_start_time st = 50
        /\ get (prox_error_count st) "TOF_SENSOR_ERRORS" = VInt 2).
Proof.
  split; eexists; (split; [vm_compute; reflexivity|]); repeat split; reflexivity.
Qed.

(** C2 on the code: an interval opened on the last row is counted and
    left open, and an interval opened at timestamp 0 is never closed;
    neither is recorded. *)
Theorem open_interval_dropped_at_stream_end :
  (exists st,
     search_for_prox_reading_errors bus_cfg ∅ 0 [bus_row "5" "256"] = Return st
     /\ get (prox_error_count st) "TOF_SENSOR_ERRORS" = VInt 1
     /\ i2c_bus_error_start_time st = 5
     /\ i2c_bus_errors st = ∅)
  /\ (exists st,
        search_for_prox_reading_errors bus_cfg ∅ 0
          [bus_row "0" "256"; bus_row "10" "256"] = Return st
        /\ get (prox_error_count st) "TOF_SENSOR_ERRORS" = VInt 1
        /\ i2c_bus_error_start_time st = 0
        /\ i2c_bus_errors st = ∅).
Proof.
  split; eexists; (split; [vm_compute; reflexivity|]); repeat split; reflexivity.
Qed.

(** C5 on the code: the value held from timestamp 0 to 4000 is not
    recorded, because a start timestamp of 0 does not pass the test
    [tof_reading_start_time[field] > 0]; the same stream shifted to start
    at timestamp 1 is recorded. *)
Theorem stale_reading_from_timestamp_zero :
  (exists st,
     search_for_prox_reading_errors stale_cfg ∅ 0
       [stale_row "0" "5"; stale_row "50" "5"; stale_row "100" "5";
        stale_row "150" "5"; stale_row "4000" "5"] = Return st
     /\ stale_tof_readings st = ∅)
  /\ (exists st,
        search_for_prox_reading_errors stale_cfg ∅ 0
          [stale_row "1" "5"; stale_row "50" "5"; stale_row "100" "5";
           stale_row "150" "5"; stale_row "4000" "5"] = Return st
        /\ stale_tof_readings st = {[ (1, "tof_range") := (5, 3999) ]}).
Proof.
  split; eexists; (split; [vm_compute; reflexivity|]); reflexivity.
Qed.

(** ** The pose pass *)

Section PosePassFacts.

Variable py_float : string -> option Q.

Lemma norm_lt_zero (x y : Q) :
  norm_lt ((x - x)%Q, (y - y)%Q) STATIONARY_POSE_THRESHOLD = true.
Proof.
  unfold norm_lt. simpl. apply negb_true_iff, not_true_iff_false.
  rewrite Qle_bool_iff. intros H.
  assert (Hz : ((x - x) * (x - x) + (y - y) * (y - y) == 0)%Q) by ring.
  rewrite Hz in H. revert H. apply Qlt_not_le. reflexivity.
Qed.

Lemma Qle_bool_proper (a b c : Q) : (b == c)%Q -> Qle_bool a b = Qle_bool a c.
Proof.
  intros Hbc. destruct (Qle_bool a c) eqn:Hc.
  - apply Qle_bool_iff. rewrite Hbc. by apply Qle_bool_iff.
  - apply not_true_iff_false. rewrite Qle_bool_iff, Hbc, <- Qle_bool_iff. congruence.
Qed.

Lemma norm_lt_from_origin (p : Q * Q) :
  norm_lt ((fst p - 0)%Q, (snd p - 0)%Q) STATIONARY_POSE_THRESHOLD
  = norm_lt p STATIONARY_POSE_THRESHOLD.
Proof.
  unfold norm_lt. cbn [fst snd]. do 2 f_equal. apply Qle_bool_proper. ring.
Qed.

(** Rows between two subsamples are not even read. *)
Lemma pose_row_skip st cnt row :
  cnt mod READING_SUBSAMPLE_ITERS <> 0 -> pose_row py_float st (cnt, row) = Return st.
Proof. intros H. unfold pose_row. by rewrite (proj2 (Z.eqb_neq _ _) H). Qed.

Lemma pose_row_sample st cnt row :
  cnt mod READING_SUBSAMPLE_ITERS = 0 ->
  pose_row py_float st (cnt, row) = pose_row py_float st (0, row).
Proof. intros H. unfold pose_row. by rewrite H. Qed.

Lemma for_each_pose_row_filter (l : list (Z * gmap string string)) st :
  for_each (pose_row py_float) l st
  = for_each (fun st row => pose_row py_float st (0, row))
      (map snd (List.filter (fun cr => fst cr mod READING_SUBSAMPLE_ITERS =? 0) l)) st.
Proof.
  revert st. induction l as [|[cnt row] l IH]; intros st; [reflexivity|].
  cbn [for_each List.filter fst].
  destruct (cnt mod READING_SUBSAMPLE_ITERS =? 0) eqn:Hc.
  - apply Z.eqb_eq in Hc. cbn [map snd for_each]. rewrite pose_row_sample by done.
    destruct (pose_row py_float st (0, row)); simpl; [apply IH | reflexivity].
  - apply Z.eqb_neq in Hc. rewrite pose_row_skip by done. simpl. apply IH.
Qed.

(** A subsample at [p] while the reference pose is [q]. *)
Lemma pose_sample st row p :
  at_position py_float p row ->
  pose_row py_float st (0, row)
  = Return
      (if norm_lt ((fst p - fst (last_pose st))%Q, (snd p - snd (last_pose st))%Q)
            STATIONARY_POSE_THRESHOLD
       then {| pose_error_count := pose_error_count st;
               stationary_errors := stationary_errors st;
               last_pose := last_pose st;
               stationary_count := stationary_count st + 1 |}
       else {| pose_error_count := pose_error_count (note_stationary st);
               stationary_errors := stationary_errors (note_stationary st);
               last_pose := p;
               stationary_count := 0 |}).
Proof.
  intros (xs & ys & Hx & Hy & Hpx & Hpy). unfold pose_row, row_get.
  change (0 mod READING_SUBSAMPLE_ITERS =? 0) with true. cbv iota.
  rewrite Hx. cbn [of_option mbind result_bind]. rewrite Hpx.
  cbn [of_option mbind result_bind]. rewrite Hy. cbn [of_option mbind result_bind].
  rewrite Hpy. cbn [of_option mbind result_bind].
  destruct p as [px py']. cbn [fst snd]. by destruct (norm_lt _ _).
Qed.

(** Subsamples at the reference pose itself only advance the counter. *)
Lemma pose_samples_at_rest samples st p :
  Forall (at_position py_float p) samples ->
  norm_lt ((fst p - fst (last_pose st))%Q, (snd p - snd (last_pose st))%Q)
    STATIONARY_POSE_THRESHOLD = true ->
  for_each (fun st row => pose_row py_float st (0, row)) samples st
  = Return {| pose_error_count := pose_error_count st;
              stationary_errors := stationary_errors st;
              last_pose := last_pose st;
              stationary_count := stationary_count st + Z.of_nat (length samples) |}.
Proof.
  intros Hall. revert st. induction Hall as [|row samples Hrow _ IH]; intros st Hnear.
  - simpl. rewrite Z.add_0_r. by destruct st.
  - cbn [for_each]. rewrite (pose_sample st row p Hrow), Hnear.
    cbn [mbind result_bind]. rewrite IH by exact Hnear.
    cbn [pose_error_count stationary_errors last_pose stationary_count length].
    do 2 f_equal. lia.
Qed.

(** C7, as the code has it: forty subsamples at one position give one
    stationary period; it lasts 20000 when the position is within the
    pose threshold of the origin, where the reference pose starts, and
    19500 otherwise, because the first subsample then only moves the
    reference pose. *)
Theorem stationary_constant_position ec rows p :
  length (subsampled rows) = 40%nat ->
  Forall (at_position py_float p) (subsampled rows) ->
  exists st,
    search_for_stationary_errors py_float ec rows = Return st
    /\ stationary_errors st
       = [if norm_lt p STATIONARY_POSE_THRESHOLD then 20000 else 19500].
Proof.
  intros Hlen Hall. unfold search_for_stationary_errors, enumerate.
  rewrite for_each_pose_row_filter. fold (enumerate rows). fold (subsampled rows).
  destruct (norm_lt p STATIONARY_POSE_THRESHOLD) eqn:Hnear.
  - rewrite (pose_samples_at_rest _ _ p Hall)
      by (cbn [pose_init last_pose fst snd]; by rewrite norm_lt_from_origin).
    rewrite Hlen. eexists. split; reflexivity.
  - destruct (subsampled rows) as [|row samples]; [discriminate Hlen|].
    apply Forall_cons in Hall as [Hrow Hall]. cbn [for_each].
    rewrite (pose_sample _ row p Hrow). cbn [pose_init last_pose fst snd].
    rewrite norm_lt_from_origin, Hnear. cbn [mbind result_bind].
    rewrite (pose_samples_at_rest _ _ p Hall)
      by (cbn [last_pose]; apply norm_lt_zero).
    injection Hlen as ->. eexists. split; reflexivity.
Qed.

End PosePassFacts.

Lemma subsampled_from_Forall {A : Type} (P : A -> Prop) (rows : list A) (i : Z) :
  Forall P rows ->
  Forall P (map snd (List.filter (fun cr => fst cr mod READING_SUBSAMPLE_ITERS =? 0)
                       (enumerate_from i rows))).
Proof.
  intros Hall. revert i.
  induction Hall as [|row rows Hrow _ IH]; intros i; simpl; [constructor|].
  destruct (i mod READING_SUBSAMPLE_ITERS =? 0); simpl; [constructor; [done|]|]; apply IH.
Qed.

Lemma subsampled_Forall {A : Type} (P : A -> Prop) (rows : list A) :
  Forall P rows -> Forall P (subsampled rows).
Proof. apply subsampled_from_Forall. 
Qed.

(** C7, amended, at the position (5, 5), which is within the threshold
    of the origin. *)
Example stationary_constant_position_witness :
  length (subsampled (replicate 1951 (pose_at "5" "5"))) = 40%nat
  /\ Forall (at_position float_of_literal (inject_Z 5, inject_Z 5))
            (subsampled (replicate 1951 (pose_at "5" "5")))
  /\ exists st,
       search_for_stationary_errors float_of_literal ∅ (replicate 1951 (pose_at "5" "5"))
       = Return st
       /\ stationary_errors st = [20000].
Proof.
  assert (Hlen : length (subsampled (replicate 1951 (pose_at "5" "5"))) = 40%nat)
    by (vm_compute; reflexivity).
  assert (Hall : Forall (at_position float_of_literal (inject_Z 5, inject_Z 5))
                   (subsampled (replicate 1951 (pose_at "5" "5")))).
  { apply subsampled_Forall, Forall_replicate. exists "5", "5". repeat split. }
  split; [exact Hlen|]. split; [exact Hall|].
  exact (stationary_constant_position float_of_literal ∅ _ _ Hlen Hall).
Defined.

(** C7 fails on the code for a position away from the origin: forty
    subsamples at (100, 5) give one period of 19500. *)
Example stationary_period_away_from_origin :
  length (subsampled (replicate 1951 (pose_at "100" "5"))) = 40%nat
  /\ exists st,
       search_for_stationary_errors float_of_literal ∅ (replicate 1951 (pose_at "100" "5"))
       = Return st
       /\ stationary_errors st = [19500]
       /\ stationary_errors st <> [20000].
Proof.
  split; [vm_compute; reflexivity|].
  eexists. split; [vm_compute; reflexivity|]. split; [reflexivity | discriminate].
Qed.

(** ** Rows and column indices *)

Lemma list_set_Return {A : Type} (i : nat) (x : A) (l l' : list A) :
  list_set i x l = Return l' -> (i < length l)%nat /\ l' = <[i := x]> l.
Proof.
  unfold list_set. destruct (decide (i < length l)%nat); [|discriminate].
  by intros [= <-].
Qed.

Lemma list_set_lt {A : Type} (i : nat) (x : A) (l : list A) :
  (i < length l)%nat -> list_set i x l = Return (<[i := x]> l).
Proof. intros H. unfold list_set. by rewrite decide_True. Qed.

Lemma blank_row_length header : length (blank_row header) = length header.
Proof. apply length_replicate. Qed.

Lemma blank_row_lookup header i :
  (i < length header)%nat -> blank_row header !! i = Some (CNum (VInt 0)).
Proof. intros H. by apply lookup_replicate_2. Qed.

Lemma col_idx_snoc headers h :
  col_idx (headers ++ [h]) = <[h := length headers]> (col_idx headers).
Proof.
  unfold col_idx. rewrite imap_app, fold_left_app. simpl.
  by rewrite Nat.add_0_r.
Qed.

(** An index found in the dictionary points at its own name. *)
Lemma col_idx_lookup headers name i :
  col_idx headers !! name = Some i -> headers !! i = Some name.
Proof.
  revert i. induction headers as [|h headers IH] using rev_ind; intros i.
  - unfold col_idx. simpl. by rewrite lookup_empty.
  - rewrite col_idx_snoc. destruct (decide (h = name)) as [->|Hne].
    + rewrite lookup_insert_eq. intros [= <-].
      by rewrite lookup_app_r, Nat.sub_diag.
    + rewrite lookup_insert_ne by done. intros Hi%IH.
      by apply lookup_app_l_Some.
Qed.

Lemma col_idx_lt headers name i :
  col_idx headers !! name = Some i -> (i < length headers)%nat.
Proof. intros H%col_idx_lookup. by eapply lookup_lt_Some. Qed.

Lemma col_idx_inj headers a b i j :
  col_idx headers !! a = Some i -> col_idx headers !! b = Some j -> a <> b -> i <> j.
Proof. intros Ha%col_idx_lookup Hb%col_idx_lookup Hne ->. congruence. Qed.

Lemma col_idx_elem_of headers name :
  name ∈ headers <-> is_Some (col_idx headers !! name).
Proof.
  induction headers as [|h headers IH] using rev_ind.
  - unfold col_idx. simpl. rewrite lookup_empty. split; [by intros ?%elem_of_nil|].
    by intros [? ?].
  - rewrite col_idx_snoc, elem_of_app, list_elem_of_singleton.
    destruct (decide (h = name)) as [->|Hne].
    + rewrite lookup_insert_eq. split; eauto.
    + rewrite lookup_insert_ne by done. rewrite IH. split; [|by left].
      by intros [? | ?].
Qed.

Lemma set_col_Return idx name x row row' :
  set_col idx name x row = Return row' ->
  exists i, idx !! name = Some i /\ (i < length row)%nat /\ row' = <[i := x]> row.
Proof.
  unfold set_col. intros (i & Hi & Hset)%bind_Return.
  destruct (idx !! name) as [i'|] eqn:Hidx; [|discriminate].
  injection Hi as ->. apply list_set_Return in Hset as [? ?]. eauto.
Qed.

(** ** Buckets *)

Lemma bucket_bump sw build key stats sw' build' :
  bucket (bump sw build key stats) sw' build'
  = if decide (sw = sw' /\ build = build')
    then <[key := default 0 (bucket stats sw build !! key) + 1]> (bucket stats sw build)
    else bucket stats sw' build'.
Proof.
  unfold bump, bucket at 1. destruct (decide (sw = sw')) as [<-|Hsw].
  - rewrite lookup_insert_eq. simpl. destruct (decide (build = build')) as [<-|Hb].
    + rewrite lookup_insert_eq. simpl. by rewrite decide_True.
    + rewrite lookup_insert_ne by done. rewrite decide_False by (by intros [_ ?]). done.
  - rewrite lookup_insert_ne by done. rewrite decide_False by (by intros [? _]). done.
Qed.

(** A bump never removes a key of any bucket. *)
Lemma bucket_bump_is_Some sw build key stats sw' build' k :
  is_Some (bucket stats sw' build' !! k) ->
  is_Some (bucket (bump sw build key stats) sw' build' !! k).
Proof.
  intros Hk. rewrite bucket_bump. destruct (decide _) as [[<- <-]|]; [|done].
  destruct (decide (key = k)) as [->|]; [rewrite lookup_insert_eq; eauto|].
  by rewrite lookup_insert_ne.
Qed.

Lemma bucket_bump_same sw build key stats :
  is_Some (bucket (bump sw build key stats) sw build !! key).
Proof. rewrite bucket_bump, decide_True by done. rewrite lookup_insert_eq. eauto. Qed.

(** A bump of another key, or in another bucket, leaves an entry alone. *)
Lemma bucket_bump_other sw build key stats sw' build' k :
  key <> k \/ (sw, build) <> (sw', build') ->
  bucket (bump sw build key stats) sw' build' !! k = bucket stats sw' build' !! k.
Proof.
  intros Hother. rewrite bucket_bump. destruct (decide _) as [[<- <-]|]; [|done].
  destruct Hother as [Hne | Hne]; [|done]. by rewrite lookup_insert_ne.
Qed.

(** ** The merge of one run *)

Lemma touch_get k ec k' : get (touch k ec) k' = get ec k'.
Proof.
  unfold touch, get. destruct (ec !! k) eqn:Hk; [done|].
  destruct (decide (k = k')) as [<-|Hne]; [by rewrite lookup_insert_eq, Hk|].
  by rewrite lookup_insert_ne.
Qed.

Lemma touch_is_Some k ec : is_Some (touch k ec !! k).
Proof.
  unfold touch. destruct (ec !! k) eqn:Hk; [by rewrite Hk|]. rewrite lookup_insert_eq. eauto.
Qed.

Lemma touch_lookup_ne k ec k' : k <> k' -> touch k ec !! k' = ec !! k'.
Proof.
  intros Hne. unfold touch. destruct (ec !! k); [done|]. by rewrite lookup_insert_ne.
Qed.

Lemma touch_mono k ec k' : is_Some (ec !! k') -> is_Some (touch k ec !! k').
Proof.
  intros H. unfold touch. destruct (ec !! k) eqn:Hk; [done|].
  destruct (decide (k = k')) as [<-|Hne]; [rewrite lookup_insert_eq; eauto|].
  by rewrite lookup_insert_ne.
Qed.

(** The reads of the start location leave every count as it was, and
    leave at least one key behind. *)
Lemma started_location_get ec k : get (snd (started_location ec)) k = get ec k.
Proof.
  unfold started_location. repeat case_match; simpl; by rewrite !touch_get.
Qed.

Lemma started_location_nonempty ec : snd (started_location ec) <> ∅.
Proof.
  assert (H : is_Some (snd (started_location ec) !! "STARTED_ON_BASE")).
  { unfold started_location. pose proof (touch_is_Some "STARTED_ON_BASE" ec).
    repeat case_match; simpl; auto using touch_mono. }
  intros Hempty. rewrite Hempty, lookup_empty in H. by destruct H.
Qed.

Lemma started_location_lookup ec k :
  k <> "STARTED_ON_BASE" -> k <> "STARTED_OFF_BASE" -> k <> "STARTED_ON_BASE_UNDOCKING" ->
  snd (started_location ec) !! k = ec !! k.
Proof.
  intros. unfold started_location.
  repeat case_match; simpl; by rewrite !touch_lookup_ne.
Qed.

Lemma started_location_mono ec k :
  is_Some (ec !! k) -> is_Some (snd (started_location ec) !! k).
Proof.
  intros. unfold started_location. repeat case_match; simpl; auto using touch_mono.
Qed.

Lemma sum_cols_ext ec ec' cols :
  (forall k, get ec' k = get ec k) -> sum_cols ec' cols = sum_cols ec cols.
Proof.
  intros H. unfold sum_cols. f_equal. apply map_ext. intros k. apply H.
Qed.

(** What one item of the counts does to the autonomy row and to the
    statistics. *)
Lemma merge_item_Return cfg sw build st code count st' :
  merge_item cfg sw build st (code, count) = Return st' ->
  (is_status code = false /\ code ∈ AUTONOMY_CSV_HEADER cfg
   /\ (exists j, AUTONOMY_CSV_ERROR_TO_COL_IDX cfg !! code = Some j
                 /\ (j < length (autonomy_row st))%nat
                 /\ autonomy_row st' = <[j := CNum count]> (autonomy_row st))
   /\ autonomy_statistics (totals st')
      = bump sw build code (autonomy_statistics (totals st)))
  \/ ((is_status code = true \/ code ∉ AUTONOMY_CSV_HEADER cfg)
      /\ autonomy_row st' = autonomy_row st
      /\ autonomy_statistics (totals st') = autonomy_statistics (totals st)).
Proof.
  unfold merge_item. intros (s1 & H1 & [= <-])%bind_Return. simpl.
  destruct (is_status code) eqn:Hstatus.
  - apply bind_Return in H1 as (srow & _ & [= <-]). right. auto.
  - apply bind_Return in H1 as (s2 & H2 & H3).
    apply bind_Return in H3 as (srow & _ & [= <-]). simpl.
    case_bool_decide as Hin.
    + apply bind_Return in H2 as (arow & Hset & [= <-]). simpl.
      apply set_col_Return in Hset as (j & Hj & Hlt & ->). left. eauto 10.
    + injection H2 as <-. right. auto.
Qed.

Lemma merge_addition_Return cfg sw build ec st col cols st' :
  merge_addition cfg sw build ec st (col, cols) = Return st' ->
  (exists j, AUTONOMY_CSV_ERROR_TO_COL_IDX cfg !! col = Some j
             /\ (j < length (autonomy_row st))%nat
             /\ autonomy_row st' = <[j := CNum (sum_cols ec cols)]> (autonomy_row st))
  /\ autonomy_statistics (totals st')
     = if ge_one (sum_cols ec cols)
       then bump sw build col (autonomy_statistics (totals st))
       else autonomy_statistics (totals st).
Proof.
  unfold merge_addition. intros (arow & Hset & [= <-])%bind_Return. simpl.
  apply set_col_Return in Hset as (j & Hj & Hlt & ->). eauto 10.
Qed.

Lemma merge_items_cell cfg sw build l st st' s i :
  NoDup (l.*1) ->
  for_each (merge_item cfg sw build) l st = Return st' ->
  AUTONOMY_CSV_ERROR_TO_COL_IDX cfg !! s = Some i ->
  is_status s = false ->
  autonomy_row st' !! i
  = match (list_to_map l : gmap string value) !! s with
    | Some v => Some (CNum v)
    | None => autonomy_row st !! i
    end.
Proof.
  intros Hnodup Hrun Hi Hs. revert st Hrun.
  induction l as [|[c v] l IH]; intros st Hrun; simpl in Hrun.
  - injection Hrun as <-. simpl. by rewrite lookup_empty.
  - apply NoDup_cons in Hnodup as [Hc Hnodup].
    apply bind_Return in Hrun as (s1 & H1 & H2).
    rewrite (IH Hnodup s1 H2). simpl.
    apply merge_item_Return in H1
      as [(_ & _ & (j & Hj & Hlt & Hrow) & _) | (Hskip & Hrow & _)].
    + destruct (decide (c = s)) as [->|Hne].
      * rewrite lookup_insert_eq.
        rewrite (not_elem_of_list_to_map_1 l s Hc).
        assert (j = i) as -> by congruence.
        rewrite Hrow. by apply list_lookup_insert_eq.
      * rewrite lookup_insert_ne by done.
        rewrite Hrow, list_lookup_insert_ne; [done|].
        by eapply col_idx_inj.
    + rewrite Hrow. destruct (decide (c = s)) as [->|Hne];
        [|by rewrite lookup_insert_ne].
      exfalso. destruct Hskip as [Hskip | Hskip]; [congruence|].
      apply Hskip, col_idx_elem_of. by exists i.
Qed.

Lemma lookup_key_None {A : Type} (k : string) (l : list (string * A)) :
  k ∉ keys l -> lookup_key k l = None.
Proof.
  induction l as [|[k' a] l IH]; intros Hk; simpl; [done|].
  unfold keys in Hk. simpl in Hk. apply not_elem_of_cons in Hk as [Hne Hk].
  rewrite (proj2 (String.eqb_neq k' k)) by done. by apply IH.
Qed.

Lemma lookup_key_elem_of {A : Type} (k : string) (a : A) (l : list (string * A)) :
  NoDup (keys l) -> (k, a) ∈ l -> lookup_key k l = Some a.
Proof.
  induction l as [|[k' a'] l IH]; intros Hnodup Hin; [by apply elem_of_nil in Hin|].
  unfold keys in Hnodup. simpl in *. apply NoDup_cons in Hnodup as [Hk' Hnodup].
  apply elem_of_cons in Hin as [[= <- <-] | Hin]; [by rewrite String.eqb_refl|].
  destruct (String.eqb k' k) eqn:Heq; [|by apply IH].
  apply String.eqb_eq in Heq as ->. exfalso. apply Hk'.
  apply list_elem_of_fmap. by exists (k, a).
Qed.

Lemma merge_additions_cell cfg sw build ec adds st st' s i :
  NoDup (keys adds) ->
  for_each (merge_addition cfg sw build ec) adds st = Return st' ->
  AUTONOMY_CSV_ERROR_TO_COL_IDX cfg !! s = Some i ->
  autonomy_row st' !! i
  = match lookup_key s adds with
    | Some cols => Some (CNum (sum_cols ec cols))
    | None => autonomy_row st !! i
    end.
Proof.
  intros Hnodup Hrun Hi. revert st Hrun.
  induction adds as [|[col cols] adds IH]; intros st Hrun; simpl in Hrun.
  - by injection Hrun as <-.
  - unfold keys in Hnodup. simpl in Hnodup. apply NoDup_cons in Hnodup as [Hcol Hnodup].
    apply bind_Return in Hrun as (s1 & H1 & H2).
    rewrite (IH Hnodup s1 H2). simpl.
    apply merge_addition_Return in H1 as [(j & Hj & Hlt & Hrow) _].
    destruct (String.eqb col s) eqn:Heq.
    + apply String.eqb_eq in Heq as ->. rewrite (lookup_key_None s adds Hcol).
      assert (j = i) as -> by congruence.
      rewrite Hrow. by apply list_lookup_insert_eq.
    + apply String.eqb_neq in Heq.
      destruct (lookup_key s adds); [done|].
      rewrite Hrow, list_lookup_insert_ne; [done|]. by eapply col_idx_inj.
Qed.

Lemma init_rows_Return cfg log build acc st0 :
  init_rows cfg log build acc = Return st0 ->
  (2 <= length (AUTONOMY_CSV_HEADER cfg))%nat
  /\ autonomy_row st0
     = <[1%nat := cell_of_build build]>
         (<[0%nat := CStr log]> (blank_row (AUTONOMY_CSV_HEADER cfg)))
  /\ totals st0 = acc.
Proof.
  unfold init_rows. intros (srow & _ & H)%bind_Return.
  apply bind_Return in H as (arow & Ha & H).
  apply bind_Return in H as (srow' & _ & H).
  apply bind_Return in H as (arow' & Ha' & [= <-]).
  apply list_set_Return in Ha as [_ ->]. apply list_set_Return in Ha' as [Hlen ->].
  rewrite length_insert, blank_row_length in Hlen. simpl. split; [lia | done].
Qed.

(** After the merge, the column of a state holds the count the
    transition test is about. *)
Lemma merge_run_cell cfg log build acc st0 ec st s i :
  init_rows cfg log build acc = Return st0 ->
  merge_run cfg build ec st0 = Return st ->
  NoDup (keys (AUTONOMY_COLUMN_ADDITIONS cfg)) ->
  AUTONOMY_CSV_ERROR_TO_COL_IDX cfg !! s = Some i -> (2 <= i)%nat ->
  is_status s = false ->
  autonomy_row st !! i = Some (CNum (count_for cfg ec s)).
Proof.
  intros (Hlen & Hrow0 & _)%init_rows_Return Hrun Hnodup Hi Hge Hs.
  unfold merge_run in Hrun.
  pose proof (started_location_get ec) as Hget.
  pose proof (started_location_nonempty ec) as Hne.
  destruct (started_location ec) as [sw ec']. simpl in Hget, Hne.
  rewrite bool_decide_eq_false_2 in Hrun by done.
  apply bind_Return in Hrun as (s1 & Hitems & Hadds).
  rewrite (merge_additions_cell _ _ _ _ _ _ _ s i Hnodup Hadds Hi).
  unfold count_for. destruct (lookup_key s _) as [cols|].
  { by rewrite (sum_cols_ext ec ec'). }
  match goal with
  | |- context [autonomy_row (if ?b then _ else _)] => destruct b; cbn [autonomy_row]
  end.
  all: rewrite (merge_items_cell _ _ _ _ _ _ s i (NoDup_fst_map_to_list ec') Hitems Hi Hs).
  all: rewrite list_to_map_to_list, <- Hget; unfold get.
  all: destruct (ec' !! s); [done|]; simpl.
  all: pose proof (col_idx_lt _ _ _ Hi) as Hlt.
  all: rewrite Hrow0, !list_lookup_insert_ne by lia; by apply blank_row_lookup.
Qed.

(** ** Transition failures *)

Lemma transition_failed_cells cfg arow s e i j vs ve :
  AUTONOMY_CSV_ERROR_TO_COL_IDX cfg !! s = Some i ->
  AUTONOMY_CSV_ERROR_TO_COL_IDX cfg !! e = Some j ->
  arow !! i = Some (CNum vs) -> arow !! j = Some (CNum ve) ->
  transition_failed cfg arow s e = Return (ge_one vs && eq_zero ve).
Proof.
  intros Hi Hj Hs He. unfold transition_failed, get_col.
  rewrite Hi, Hj. simpl. rewrite Hs, He. simpl. by destruct (ge_one vs).
Qed.

(** Every record of the loop comes from a configured transition and has
    the shape of [transition_record]. *)
Lemma transition_loop_records cfg arow transitions out0 out row :
  for_each (transition_step cfg arow) transitions out0 = Return out ->
  row ∈ out ->
  row ∈ out0 \/ exists t, t ∈ keys transitions /\ row = transition_record t arow.
Proof.
  revert out0. induction transitions as [|[t [s e]] transitions IH];
    intros out0 Hrun Hrow; simpl in Hrun.
  - injection Hrun as <-. by left.
  - apply bind_Return in Hrun as (out1 & Hstep & Hrest).
    destruct (IH out1 Hrest Hrow) as [Hin | (t' & Ht' & ->)].
    + apply bind_Return in Hstep as ([|] & _ & Hstep).
      * apply bind_Return in Hstep as (l & Hl & Hstep).
        apply bind_Return in Hstep as (b & Hb & [= <-]).
        apply elem_of_app in Hin as [Hin | Hin%list_elem_of_singleton]; [by left|].
        right. exists t. split; [by left|]. subst row. unfold transition_record.
        destruct (arow !! 0%nat); [|discriminate]. destruct (arow !! 1%nat); [|discriminate].
        simpl in *. congruence.
      * injection Hstep as <-. by left.
    + right. exists t'. split; [by right | done].
Qed.

Lemma transition_loop_keeps cfg arow transitions out0 out row :
  for_each (transition_step cfg arow) transitions out0 = Return out ->
  row ∈ out0 -> row ∈ out.
Proof.
  revert out0. induction transitions as [|[t [s e]] transitions IH];
    intros out0 Hrun Hrow; simpl in Hrun.
  - by injection Hrun as <-.
  - apply bind_Return in Hrun as (out1 & Hstep & Hrest). apply (IH out1 Hrest).
    apply bind_Return in Hstep as ([|] & _ & Hstep).
    + apply bind_Return in Hstep as (l & Hl & Hstep).
      apply bind_Return in Hstep as (b & Hb & [= <-]). apply elem_of_app. by left.
    + by injection Hstep as <-.
Qed.

Lemma transition_record_inj t t' arow :
  transition_record t arow = transition_record t' arow -> t = t'.
Proof. unfold transition_record. by intros [= ->]. Qed.

(** A configured transition has its record in the output exactly when
    its test succeeds. *)
Lemma transition_loop_elem_of cfg arow transitions out0 out t s e failed :
  for_each (transition_step cfg arow) transitions out0 = Return out ->
  NoDup (keys transitions) ->
  (t, (s, e)) ∈ transitions ->
  transition_failed cfg arow s e = Return failed ->
  transition_record t arow ∉ out0 ->
  transition_record t arow ∈ out <-> failed = true.
Proof.
  intros Hrun Hnodup Hin Hfailed. revert out0 Hrun.
  induction transitions as [|[t' [s' e']] transitions IH]; intros out0 Hrun Hfresh;
    [by apply elem_of_nil in Hin|].
  unfold keys in Hnodup. simpl in Hnodup, Hrun.
  apply NoDup_cons in Hnodup as [Ht' Hnodup].
  apply bind_Return in Hrun as (out1 & Hstep & Hrest).
  apply elem_of_cons in Hin as [[= <- <- <-] | Hin].
  - rewrite Hfailed in Hstep. simpl in Hstep. destruct failed.
    + apply bind_Return in Hstep as (l & Hl & Hstep).
      apply bind_Return in Hstep as (b & Hb & [= <-]).
      split; [done|]. intros _. eapply transition_loop_keeps; [exact Hrest|].
      apply elem_of_app. right. apply list_elem_of_singleton. unfold transition_record.
      destruct (arow !! 0%nat); [|discriminate]. destruct (arow !! 1%nat); [|discriminate].
      simpl in *. congruence.
    + injection Hstep as <-. split; [|done]. intros Hrow.
      destruct (transition_loop_records _ _ _ _ _ _ Hrest Hrow)
        as [? | (t' & Hk & ->%transition_record_inj)]; done.
  - apply (IH Hnodup Hin out1 Hrest).
    apply bind_Return in Hstep as ([|] & _ & Hstep); [|by injection Hstep as <-].
    apply bind_Return in Hstep as (l & Hl & Hstep).
    apply bind_Return in Hstep as (b & Hb & [= <-]).
    intros [? | Heq%list_elem_of_singleton]%elem_of_app; [done|].
    apply Ht'. apply list_elem_of_fmap. exists (t, (s, e)). split; [|done].
    unfold transition_record in Heq. simpl. congruence.
Qed.

(** A configured transition has its record in the output exactly when
    its test succeeds. *)
Lemma transition_rows_elem_of cfg arow out t s e failed :
  transition_rows cfg arow = Return out ->
  NoDup (keys (AUTONOMY_TRANSITIONS cfg)) ->
  (t, (s, e)) ∈ AUTONOMY_TRANSITIONS cfg ->
  transition_failed cfg arow s e = Return failed ->
  transition_record t arow ∈ out <-> failed = true.
Proof.
  intros Hrun Hnodup Hin Hfailed.
  eapply transition_loop_elem_of; eauto. apply not_elem_of_nil.
Qed.

(** C8: for a finalized run and a configured transition pair whose
    states have columns, the transition-failure record of the run is
    written exactly when the count for the start state is at least 1 and
    the count for the end state is 0; the statistics, the start location
    and the build play no part in the test. *)
Theorem transition_failure_iff cfg log build acc st0 ec st out t s e :
  NoDup (keys (AUTONOMY_TRANSITIONS cfg)) ->
  NoDup (keys (AUTONOMY_COLUMN_ADDITIONS cfg)) ->
  (t, (s, e)) ∈ AUTONOMY_TRANSITIONS cfg ->
  state_column cfg s -> state_column cfg e ->
  init_rows cfg log build acc = Return st0 ->
  merge_run cfg build ec st0 = Return st ->
  transition_rows cfg (autonomy_row st) = Return out ->
  transition_record t (autonomy_row st) ∈ out
  <-> ge_one (count_for cfg ec s) = true /\ eq_zero (count_for cfg ec e) = true.
Proof.
  intros Htrans Hadds Hin (Hs & i & Hi & Hige) (He & j & Hj & Hjge) Hinit Hmerge Hrows.
  pose proof (merge_run_cell _ _ _ _ _ _ _ s i Hinit Hmerge Hadds Hi Hige Hs) as Hcs.
  pose proof (merge_run_cell _ _ _ _ _ _ _ e j Hinit Hmerge Hadds Hj Hjge He) as Hce.
  rewrite (transition_rows_elem_of _ _ _ _ _ _ _ Hrows Htrans Hin
             (transition_failed_cells _ _ _ _ _ _ _ _ Hi Hj Hcs Hce)).
  apply andb_true_iff.
Qed.

(** ** The rollup *)

Lemma map_result_raises {A B : Type} (f : A -> result B) (l : list A) (x : A) :
  x ∈ l -> raises (f x) -> raises (map_result f l).
Proof.
  intros Hx Hbad. induction l as [|y l IH]; [by apply elem_of_nil in Hx|].
  simpl. apply elem_of_cons in Hx as [<- | Hx]; [by apply bind_raises|].
  destruct (f y) as [b|e]; simpl; [|by exists e].
  by apply bind_raises, IH.
Qed.

(** With a zero run count, the first tracked key divides by zero. *)
Lemma rollup_item_zero cfg b rows k :
  default 0 (b !! "count") = 0 -> k <> "count" ->
  rollup_item cfg b rows k = Raise ZeroDivisionError.
Proof.
  intros Hzero Hne. unfold rollup_item.
  rewrite (proj2 (String.eqb_neq k "count")) by done. simpl. by rewrite Hzero.
Qed.

Lemma rollup_items_zero cfg b ks rows :
  default 0 (b !! "count") = 0 ->
  (exists k, k ∈ ks /\ k <> "count") ->
  for_each (rollup_item cfg b) ks rows = Raise ZeroDivisionError.
Proof.
  intros Hzero (k & Hk & Hne). induction ks as [|k' ks IH]; [by apply elem_of_nil in Hk|].
  cbn [for_each]. destruct (decide (k' = "count")) as [->|Hne'].
  - apply elem_of_cons in Hk as [-> | Hk]; [done|]. simpl. by apply IH.
  - by rewrite rollup_item_zero.
Qed.

Lemma rollup_bucket_zero cfg sw build b key :
  (2 <= length (AUTONOMY_CSV_HEADER cfg))%nat ->
  is_Some (b !! key) -> key <> "count" -> default 0 (b !! "count") = 0 ->
  rollup_bucket cfg sw build b = Raise ZeroDivisionError.
Proof.
  intros Hlen [v Hkey] Hne Hzero. unfold rollup_bucket.
  rewrite !list_set_lt by (rewrite ?length_insert, blank_row_length; lia). simpl.
  rewrite !list_set_lt by (rewrite ?length_insert, blank_row_length; lia). simpl.
  rewrite rollup_items_zero; [done | done |].
  exists key. split; [|done]. apply list_elem_of_fmap. exists (key, v).
  split; [done|]. by apply elem_of_map_to_list.
Qed.

(** A bucket with an entry is one of the buckets the rollup visits. *)
Lemma bucket_elem_of stats sw build key :
  is_Some (bucket stats sw build !! key) ->
  (sw, build, bucket stats sw build) ∈ buckets stats.
Proof.
  unfold bucket, buckets. intros [v Hv].
  destruct (stats !! sw) as [inner|] eqn:Hsw; simpl in *;
    [|by rewrite lookup_empty in Hv].
  destruct (inner !! build) as [b|] eqn:Hb; simpl in *;
    [|by rewrite lookup_empty in Hv].
  apply list_elem_of_In, in_flat_map. exists (sw, inner).
  split; [by apply list_elem_of_In, elem_of_map_to_list|].
  apply in_map_iff. exists (build, b). split; [done|].
  by apply list_elem_of_In, elem_of_map_to_list.
Qed.

Lemma autonomy_rollup_zero cfg stats sw build key :
  (2 <= length (AUTONOMY_CSV_HEADER cfg))%nat ->
  is_Some (bucket stats sw build !! key) -> key <> "count" ->
  default 0 (bucket stats sw build !! "count") = 0 ->
  raises (autonomy_rollup cfg stats).
Proof.
  intros Hlen Hkey Hne Hzero. unfold autonomy_rollup.
  apply (map_result_raises _ _ _ (bucket_elem_of _ _ _ _ Hkey)). simpl.
  exists ZeroDivisionError. by eapply rollup_bucket_zero.
Qed.

(** ** Statistics across the runs of a batch *)

Lemma merge_item_stats_mono cfg sw build st item st' sw' build' k :
  merge_item cfg sw build st item = Return st' ->
  is_Some (bucket (autonomy_statistics (totals st)) sw' build' !! k) ->
  is_Some (bucket (autonomy_statistics (totals st')) sw' build' !! k).
Proof.
  destruct item as [code count].
  intros [(_ & _ & _ & ->) | (_ & _ & ->)]%merge_item_Return; [|done].
  apply bucket_bump_is_Some.
Qed.

Lemma merge_addition_stats_mono cfg sw build ec st entry st' sw' build' k :
  merge_addition cfg sw build ec st entry = Return st' ->
  is_Some (bucket (autonomy_statistics (totals st)) sw' build' !! k) ->
  is_Some (bucket (autonomy_statistics (totals st')) sw' build' !! k).
Proof.
  destruct entry as [col cols]. intros [_ ->]%merge_addition_Return.
  destruct (ge_one _); [apply bucket_bump_is_Some | done].
Qed.

Lemma merge_run_Return cfg build ec st0 st :
  merge_run cfg build ec st0 = Return st ->
  exists s1,
    for_each (merge_item cfg (fst (started_location ec)) build)
      (map_to_list (snd (started_location ec))) st0 = Return s1
    /\ for_each (merge_addition cfg (fst (started_location ec)) build
                   (snd (started_location ec)))
         (AUTONOMY_COLUMN_ADDITIONS cfg)
         (if bool_decide (is_Some (snd (started_location ec) !! "CLEANING_START"))
             || bool_decide (is_Some (snd (started_location ec) !! "SUSPENDED_CHARGING_START"))
          then {| summary_row := summary_row s1; autonomy_row := autonomy_row s1;
                  totals := {| overall_error_count := overall_error_count (totals s1);
                               autonomy_statistics :=
                                 bump (fst (started_location ec)) build "count"
                                   (autonomy_statistics (totals s1)) |} |}
          else s1) = Return st.
Proof.
  unfold merge_run. pose proof (started_location_nonempty ec) as Hne.
  destruct (started_location ec) as [sw ec']. simpl in *.
  rewrite bool_decide_eq_false_2 by done.
  intros (s1 & H1 & H2)%bind_Return. eauto.
Qed.

(** Keys of the statistics are never removed by a merge. *)
Lemma merge_run_stats_mono cfg build ec st0 st sw' build' k :
  merge_run cfg build ec st0 = Return st ->
  is_Some (bucket (autonomy_statistics (totals st0)) sw' build' !! k) ->
  is_Some (bucket (autonomy_statistics (totals st)) sw' build' !! k).
Proof.
  intros (s1 & Hitems & Hadds)%merge_run_Return H0.
  eapply (for_each_inv
            (fun s => is_Some (bucket (autonomy_statistics (totals s)) sw' build' !! k)));
    [| |exact Hadds].
  - intros s x s' _ Hs Hstep. by eapply merge_addition_stats_mono.
  - assert (H1 : is_Some (bucket (autonomy_statistics (totals s1)) sw' build' !! k)).
    { eapply (for_each_inv
                (fun s => is_Some (bucket (autonomy_statistics (totals s)) sw' build' !! k)));
        [|exact H0|exact Hitems].
      intros s x s' _ Hs Hstep. by eapply merge_item_stats_mono. }
    destruct (_ || _); [|done]. simpl. by apply bucket_bump_is_Some.
Qed.

(** A tracked code of the run becomes a key of the run's bucket. *)
Lemma merge_run_stats_adds cfg build ec st0 st code v :
  merge_run cfg build ec st0 = Return st ->
  ec !! code = Some v -> code ∈ AUTONOMY_CSV_HEADER cfg -> is_status code = false ->
  is_Some (bucket (autonomy_statistics (totals st)) (fst (started_location ec)) build
           !! code).
Proof.
  intros (s1 & Hitems & Hadds)%merge_run_Return Hcode Hin Hstatus.
  set (sw := fst (started_location ec)) in *.
  eapply (for_each_inv
            (fun s => is_Some (bucket (autonomy_statistics (totals s)) sw build !! code)));
    [| |exact Hadds].
  - intros s x s' _ Hs Hstep. by eapply merge_addition_stats_mono.
  - assert (H1 : is_Some (bucket (autonomy_statistics (totals s1)) sw build !! code)).
    { destruct (started_location_mono ec code (ex_intro _ v Hcode)) as [v' Hv'].
      apply elem_of_map_to_list, list_elem_of_split in Hv' as (l1 & l2 & Hl).
      rewrite Hl, for_each_app in Hitems.
      apply bind_Return in Hitems as (sa & _ & Hitems). simpl in Hitems.
      apply bind_Return in Hitems as (sb & Hitem & Hitems).
      eapply (for_each_inv
                (fun s => is_Some (bucket (autonomy_statistics (totals s)) sw build !! code)));
        [| |exact Hitems].
      - intros s x s' _ Hs Hstep. by eapply merge_item_stats_mono.
      - apply merge_item_Return in Hitem as [(_ & _ & _ & ->) | ([? | ?] & _)];
          [apply bucket_bump_same | congruence | done]. }
    destruct (_ || _); [|done]. simpl. by apply bucket_bump_is_Some.
Qed.

(** The run count of a bucket moves only for a run of that bucket that
    shows a start indicator. *)
Lemma merge_run_stats_count cfg build ec st0 st sw' build' :
  "count" ∉ AUTONOMY_CSV_HEADER cfg ->
  merge_run cfg build ec st0 = Return st ->
  (fst (started_location ec), build) <> (sw', build')
  \/ (ec !! "CLEANING_START" = None /\ ec !! "SUSPENDED_CHARGING_START" = None) ->
  bucket (autonomy_statistics (totals st)) sw' build' !! "count"
  = bucket (autonomy_statistics (totals st0)) sw' build' !! "count".
Proof.
  intros Hcount (s1 & Hitems & Hadds)%merge_run_Return Hcase.
  set (sw := fst (started_location ec)) in *.
  set (P := fun s : merge_state =>
              bucket (autonomy_statistics (totals s)) sw' build' !! "count"
              = bucket (autonomy_statistics (totals st0)) sw' build' !! "count").
  apply (for_each_inv P _ _ _ _) with (3 := Hadds).
  - intros s [col cols] s' _ Hs Hstep. unfold P in *. rewrite <- Hs.
    apply merge_addition_Return in Hstep as [(j & Hj & _) ->].
    destruct (ge_one _); [|done]. apply bucket_bump_other. left. intros ->.
    apply Hcount, col_idx_elem_of. by exists j.
  - assert (H1 : P s1).
    { apply (for_each_inv P _ _ _ _) with (3 := Hitems); [|done].
      intros s [code count] s' _ Hs Hstep. unfold P in *. rewrite <- Hs.
      apply merge_item_Return in Hstep as [(_ & Hin & _ & ->) | (_ & _ & ->)]; [|done].
      apply bucket_bump_other. left. by intros ->. }
    unfold P in *. rewrite <- H1.
    destruct Hcase as [Hother | [Hc Hs]].
    + destruct (_ || _); [|done]. simpl. apply bucket_bump_other. by right.
    + rewrite !started_location_lookup, Hc, Hs by done.
      rewrite !bool_decide_eq_false_2 by (by intros [? ?]). done.
Qed.

(** *** Which exception the rollup can end with *)

Lemma map_result_first_raise {A B : Type} (f : A -> result B) (l : list A) (e : exn) :
  (forall x, x ∈ l -> (exists r, f x = Return r) \/ f x = Raise e) ->
  (exists x, x ∈ l /\ f x = Raise e) ->
  map_result f l = Raise e.
Proof.
  intros Hall (x & Hx & Hbad). induction l as [|y l IH]; [by apply elem_of_nil in Hx|].
  simpl. destruct (Hall y ltac:(by left)) as [[r Hr] | Hy]; [|by rewrite Hy].
  rewrite Hr. simpl. apply elem_of_cons in Hx as [-> | Hx]; [congruence|].
  rewrite IH; [done | | done]. intros z Hz. apply Hall. by right.
Qed.

Lemma set_col_header cfg name x row :
  name ∈ AUTONOMY_CSV_HEADER cfg -> length row = length (AUTONOMY_CSV_HEADER cfg) ->
  exists row', set_col (AUTONOMY_CSV_ERROR_TO_COL_IDX cfg) name x row = Return row'
               /\ length row' = length (AUTONOMY_CSV_HEADER cfg).
Proof.
  intros [i Hi]%col_idx_elem_of Hlen. unfold set_col, AUTONOMY_CSV_ERROR_TO_COL_IDX.
  rewrite Hi. simpl. rewrite list_set_lt by (rewrite Hlen; by eapply col_idx_lt).
  eexists. split; [done|]. by rewrite length_insert.
Qed.

Lemma get_col_header cfg name row :
  name ∈ AUTONOMY_CSV_HEADER cfg -> length row = length (AUTONOMY_CSV_HEADER cfg) ->
  exists c, get_col (AUTONOMY_CSV_ERROR_TO_COL_IDX cfg) name row = Return c.
Proof.
  intros [i Hi]%col_idx_elem_of Hlen. unfold get_col, AUTONOMY_CSV_ERROR_TO_COL_IDX.
  rewrite Hi. simpl.
  destruct (lookup_lt_is_Some_2 row i) as [c Hc]; [rewrite Hlen; by eapply col_idx_lt|].
  rewrite Hc. by exists c.
Qed.

Lemma rollup_item_outcome cfg b rows k :
  k = "count" \/ k ∈ AUTONOMY_CSV_HEADER cfg ->
  length (fst rows) = length (AUTONOMY_CSV_HEADER cfg) ->
  length (snd rows) = length (AUTONOMY_CSV_HEADER cfg) ->
  (exists rows', rollup_item cfg b rows k = Return rows'
                 /\ length (fst rows') = length (AUTONOMY_CSV_HEADER cfg)
                 /\ length (snd rows') = length (AUTONOMY_CSV_HEADER cfg))
  \/ rollup_item cfg b rows k = Raise ZeroDivisionError.
Proof.
  intros Hk Hfst Hsnd. unfold rollup_item.
  destruct (String.eqb k "count") eqn:Heq; cbn [negb]; [left; eauto|].
  apply String.eqb_neq in Heq. destruct Hk as [-> | Hin]; [done|].
  unfold percentage. destruct (default 0 (b !! "count") =? 0); [by right|].
  cbn [mbind result_bind].
  destruct (set_col_header cfg k (CNum (VInt (default 0 (b !! k)))) _ Hin Hfst)
    as (arow & -> & Ha).
  cbn [mbind result_bind].
  edestruct (set_col_header cfg k) as (prow & -> & Hp); [exact Hin | exact Hsnd |].
  cbn [mbind result_bind]. left. eauto.
Qed.

(** With every key a column of the header, the loop over the keys of a
    bucket ends normally or by the division. *)
Lemma rollup_items_outcome cfg b ks rows :
  (forall k, k ∈ ks -> k = "count" \/ k ∈ AUTONOMY_CSV_HEADER cfg) ->
  length (fst rows) = length (AUTONOMY_CSV_HEADER cfg) ->
  length (snd rows) = length (AUTONOMY_CSV_HEADER cfg) ->
  (exists rows', for_each (rollup_item cfg b) ks rows = Return rows'
                 /\ length (snd rows') = length (AUTONOMY_CSV_HEADER cfg))
  \/ for_each (rollup_item cfg b) ks rows = Raise ZeroDivisionError.
Proof.
  revert rows. induction ks as [|k ks IH]; intros rows Hks Hfst Hsnd; cbn [for_each].
  - left. eauto.
  - destruct (rollup_item_outcome cfg b rows k (Hks k ltac:(by left)) Hfst Hsnd)
      as [(rows1 & -> & Hfst1 & Hsnd1) | ->]; [|by right].
    cbn [mbind result_bind]. apply IH; [|done|done].
    intros k' Hk'. apply Hks. by right.
Qed.

Lemma plot_percentages_Return cfg prow events :
  Forall (fun event => event ∈ AUTONOMY_CSV_HEADER cfg) events ->
  length prow = length (AUTONOMY_CSV_HEADER cfg) ->
  exists plot,
    map_result (fun event => get_col (AUTONOMY_CSV_ERROR_TO_COL_IDX cfg) event prow) events
    = Return plot.
Proof.
  intros Hall Hlen. induction Hall as [|event events Hin _ [plot IH]]; simpl; [eauto|].
  destruct (get_col_header cfg event prow Hin Hlen) as [c ->]. simpl. rewrite IH. simpl.
  eauto.
Qed.

Lemma rollup_bucket_outcome cfg sw build b :
  (2 <= length (AUTONOMY_CSV_HEADER cfg))%nat ->
  Forall (fun event => event ∈ AUTONOMY_CSV_HEADER cfg) plot_events ->
  (forall k, is_Some (b !! k) -> k = "count" \/ k ∈ AUTONOMY_CSV_HEADER cfg) ->
  (exists r, rollup_bucket cfg sw build b = Return r)
  \/ rollup_bucket cfg sw build b = Raise ZeroDivisionError.
Proof.
  intros Hlen Hplot Hkeys. unfold rollup_bucket.
  rewrite !list_set_lt by (rewrite ?length_insert, blank_row_length; lia).
  cbn [mbind result_bind].
  rewrite !list_set_lt by (rewrite ?length_insert, blank_row_length; lia).
  cbn [mbind result_bind].
  edestruct (rollup_items_outcome cfg b (map fst (map_to_list b)))
    as [(rows & -> & Hrows) | ->]; [| | |left|by right].
  - intros k ([k' v] & -> & Hkv%elem_of_map_to_list)%list_elem_of_fmap. apply Hkeys.
    by exists v.
  - simpl. by rewrite !length_insert, blank_row_length.
  - simpl. by rewrite !length_insert, blank_row_length.
  - cbn [mbind result_bind].
    destruct (plot_percentages_Return cfg (snd rows) plot_events Hplot Hrows)
      as [plot ->]. cbn [mbind result_bind]. eauto.
Qed.

Lemma buckets_elem_of stats sw build b :
  (sw, build, b) ∈ buckets stats -> b = bucket stats sw build.
Proof.
  unfold buckets, bucket. intros Hin%list_elem_of_In.
  apply in_flat_map in Hin as ([sw' inner] & Hsw%list_elem_of_In & Hin).
  apply in_map_iff in Hin as ([build' b'] & [= <- <- <-] & Hb%list_elem_of_In).
  apply elem_of_map_to_list in Hsw, Hb. simpl in *. rewrite Hsw. simpl. by rewrite Hb.
Qed.

Lemma bump_keys_in_header cfg sw build key stats :
  key = "count" \/ key ∈ AUTONOMY_CSV_HEADER cfg ->
  keys_in_header cfg stats -> keys_in_header cfg (bump sw build key stats).
Proof.
  intros Hkey Hstats sw' build' k. rewrite bucket_bump.
  destruct (decide _) as [[<- <-]|]; [|apply Hstats].
  destruct (decide (key = k)) as [<-|Hne]; [done|].
  rewrite lookup_insert_ne by done. apply Hstats.
Qed.

Lemma merge_run_keys_in_header cfg build ec st0 st :
  merge_run cfg build ec st0 = Return st ->
  keys_in_header cfg (autonomy_statistics (totals st0)) ->
  keys_in_header cfg (autonomy_statistics (totals st)).
Proof.
  intros (s1 & Hitems & Hadds)%merge_run_Return H0.
  eapply (for_each_inv (fun s => keys_in_header cfg (autonomy_statistics (totals s))));
    [| |exact Hadds].
  - intros s [col cols] s' _ Hs Hstep.
    apply merge_addition_Return in Hstep as [(j & Hj & _) ->].
    destruct (ge_one _); [|done]. apply bump_keys_in_header; [|done].
    right. apply col_idx_elem_of. by exists j.
  - assert (H1 : keys_in_header cfg (autonomy_statistics (totals s1))).
    { eapply (for_each_inv
                (fun s => keys_in_header cfg (autonomy_statistics (totals s))));
        [|exact H0|exact Hitems].
      intros s [code count] s' _ Hs Hstep.
      apply merge_item_Return in Hstep as [(_ & Hin & _ & ->) | (_ & _ & ->)]; [|done].
      apply bump_keys_in_header; auto. }
    destruct (_ || _); [|done]. simpl. apply bump_keys_in_header; auto.
Qed.

Section BatchFacts.

Variable py_float : string -> option Q.

Lemma process_bb_file_Return cfg no_prox autonomy_summary acc f acc' :
  process_bb_file py_float cfg no_prox autonomy_summary acc f = Return acc' ->
  exists st0 ec st,
    init_rows cfg (log f) (build_version f) (batch_totals acc) = Return st0
    /\ analyze py_float cfg no_prox f = Return ec
    /\ merge_run cfg (build_version f) ec st0 = Return st
    /\ batch_totals acc' = totals st.
Proof.
  unfold process_bb_file. intros (st0 & Hinit & H)%bind_Return.
  apply bind_Return in H as (ec & Hec & H).
  apply bind_Return in H as (st & Hmerge & H).
  apply bind_Return in H as (failures & _ & [= <-]).
  exists st0, ec, st. auto.
Qed.

Lemma process_bb_file_stats_mono cfg no_prox autonomy_summary acc f acc' sw build k :
  process_bb_file py_float cfg no_prox autonomy_summary acc f = Return acc' ->
  is_Some (bucket (autonomy_statistics (batch_totals acc)) sw build !! k) ->
  is_Some (bucket (autonomy_statistics (batch_totals acc')) sw build !! k).
Proof.
  intros (st0 & ec & st & Hinit & _ & Hmerge & ->)%process_bb_file_Return H.
  apply init_rows_Return in Hinit as (_ & _ & Htotals).
  eapply merge_run_stats_mono; [exact Hmerge|]. by rewrite Htotals.
Qed.

Lemma batch_stats_mono cfg no_prox autonomy_summary files acc acc' sw build k :
  for_each (process_bb_file py_float cfg no_prox autonomy_summary) files acc = Return acc' ->
  is_Some (bucket (autonomy_statistics (batch_totals acc)) sw build !! k) ->
  is_Some (bucket (autonomy_statistics (batch_totals acc')) sw build !! k).
Proof.
  intros Hrun H.
  eapply (for_each_inv
            (fun a => is_Some (bucket (autonomy_statistics (batch_totals a)) sw build !! k)));
    [|exact H|exact Hrun].
  intros a f a' _ Ha Hstep. by eapply process_bb_file_stats_mono.
Qed.

(** Every run of a finished batch had rows of at least two columns, and
    its tracked codes are keys of its bucket. *)
Lemma batch_run cfg no_prox autonomy_summary files acc acc' f ec code v :
  for_each (process_bb_file py_float cfg no_prox autonomy_summary) files acc = Return acc' ->
  f ∈ files ->
  analyze py_float cfg no_prox f = Return ec ->
  ec !! code = Some v -> code ∈ AUTONOMY_CSV_HEADER cfg -> is_status code = false ->
  (2 <= length (AUTONOMY_CSV_HEADER cfg))%nat
  /\ is_Some (bucket (autonomy_statistics (batch_totals acc'))
                (fst (run_bucket f ec)) (snd (run_bucket f ec)) !! code).
Proof.
  intros Hrun (l1 & l2 & ->)%list_elem_of_split Hec Hcode Hin Hstatus.
  rewrite for_each_app in Hrun. apply bind_Return in Hrun as (a1 & _ & Hrun).
  simpl in Hrun. apply bind_Return in Hrun as (a2 & Hf & Hrest).
  apply process_bb_file_Return in Hf as (st0 & ec' & st & Hinit & Hec' & Hmerge & Htot).
  assert (ec' = ec) as -> by congruence.
  split; [by apply init_rows_Return in Hinit as (? & _)|].
  eapply batch_stats_mono; [exact Hrest|]. rewrite Htot. simpl.
  by eapply merge_run_stats_adds.
Qed.

Lemma batch_stats_count cfg no_prox autonomy_summary files acc acc' sw build :
  "count" ∉ AUTONOMY_CSV_HEADER cfg ->
  for_each (process_bb_file py_float cfg no_prox autonomy_summary) files acc = Return acc' ->
  (forall f ec, f ∈ files -> analyze py_float cfg no_prox f = Return ec ->
                run_bucket f ec = (sw, build) ->
                ec !! "CLEANING_START" = None /\ ec !! "SUSPENDED_CHARGING_START" = None) ->
  bucket (autonomy_statistics (batch_totals acc')) sw build !! "count"
  = bucket (autonomy_statistics (batch_totals acc)) sw build !! "count".
Proof.
  intros Hcount Hrun Hnone.
  eapply (for_each_inv
            (fun a => bucket (autonomy_statistics (batch_totals a)) sw build !! "count"
                      = bucket (autonomy_statistics (batch_totals acc)) sw build !! "count"));
    [|reflexivity|exact Hrun].
  intros a f a' Hf <- Hstep.
  apply process_bb_file_Return in Hstep as (st0 & ec & st & Hinit & Hec & Hmerge & ->).
  apply init_rows_Return in Hinit as (_ & _ & <-).
  apply (merge_run_stats_count _ _ _ _ _ _ _ Hcount Hmerge).
  destruct (decide ((fst (started_location ec), build_version f) = (sw, build)))
    as [Heq|Hne]; [right | by left].
  by apply (Hnone f).
Qed.

Lemma batch_keys_in_header cfg no_prox autonomy_summary files acc :
  for_each (process_bb_file py_float cfg no_prox autonomy_summary) files batch_init
  = Return acc ->
  keys_in_header cfg (autonomy_statistics (batch_totals acc)).
Proof.
  intros Hrun.
  eapply (for_each_inv
            (fun a => keys_in_header cfg (autonomy_statistics (batch_totals a))));
    [| |exact Hrun].
  - intros a f a' _ Ha Hstep.
    apply process_bb_file_Return in Hstep as (st0 & ec & st & Hinit & _ & Hmerge & ->).
    apply init_rows_Return in Hinit as (_ & _ & Htotals).
    eapply merge_run_keys_in_header; [exact Hmerge|]. by rewrite Htotals.
  - intros sw build k. unfold bucket. simpl. rewrite !lookup_empty. simpl.
    rewrite lookup_empty. by intros [? ?].
Qed.

(** C9: a bucket that holds a tracked code of some run, while no run of
    the bucket showed a cleaning-start or suspended-charging-start key,
    has run count 0: its rollup raises ZeroDivisionError, and the batch
    ends with an exception instead of percentages. *)
Theorem rollup_divides_by_zero cfg no_prox files acc f ec code v :
  "count" ∉ AUTONOMY_CSV_HEADER cfg ->
  for_each (process_bb_file py_float cfg no_prox true) files batch_init = Return acc ->
  f ∈ files ->
  analyze py_float cfg no_prox f = Return ec ->
  ec !! code = Some v -> code ∈ AUTONOMY_CSV_HEADER cfg -> is_status code = false ->
  (forall f' ec', f' ∈ files -> analyze py_float cfg no_prox f' = Return ec' ->
                  run_bucket f' ec' = run_bucket f ec ->
                  ec' !! "CLEANING_START" = None
                  /\ ec' !! "SUSPENDED_CHARGING_START" = None) ->
  rollup_bucket cfg (fst (run_bucket f ec)) (snd (run_bucket f ec))
    (bucket (autonomy_statistics (batch_totals acc))
       (fst (run_bucket f ec)) (snd (run_bucket f ec)))
  = Raise ZeroDivisionError
  /\ raises (process_bb_files py_float cfg no_prox true files)
  /\ (Forall (fun event => event ∈ AUTONOMY_CSV_HEADER cfg) plot_events ->
      process_bb_files py_float cfg no_prox true files = Raise ZeroDivisionError).
Proof.
  intros Hcount Hrun Hf Hec Hcode Hin Hstatus Hnone.
  destruct (batch_run _ _ _ _ _ _ _ _ _ _ Hrun Hf Hec Hcode Hin Hstatus) as [Hlen Hkey].
  assert (Hne : code <> "count") by (by intros ->).
  assert (Hzero : default 0 (bucket (autonomy_statistics (batch_totals acc))
                               (fst (run_bucket f ec)) (snd (run_bucket f ec))
                             !! "count") = 0).
  { rewrite (batch_stats_count _ _ _ _ _ _ _ _ Hcount Hrun).
    - unfold bucket. simpl. by rewrite !lookup_empty.
    - intros f' ec' Hf' Hec' Hb. apply (Hnone f' ec' Hf' Hec'). rewrite Hb.
      by destruct (run_bucket f ec). }
  pose proof (rollup_bucket_zero cfg (fst (run_bucket f ec)) (snd (run_bucket f ec))
                _ code Hlen Hkey Hne Hzero) as Hbucket.
  split; [exact Hbucket|]. split.
  - unfold process_bb_files. rewrite Hrun. simpl. apply bind_raises.
    by eapply autonomy_rollup_zero.
  - intros Hplot. unfold process_bb_files. rewrite Hrun. simpl.
    unfold autonomy_rollup. rewrite (map_result_first_raise _ _ ZeroDivisionError); [done| |].
    + intros [[sw build] b] ->%buckets_elem_of. simpl.
      apply rollup_bucket_outcome; [done | done |].
      intros k. by apply (batch_keys_in_header _ _ _ _ _ Hrun).
    + eexists. split; [by eapply bucket_elem_of|]. exact Hbucket.
Qed.

End BatchFacts.

(** ** The batch on a concrete run *)

(** C8 on the run that undocks and never docks: its record is written. *)
Example transition_failure_iff_witness :
  analyze float_of_literal autonomy_cfg false undocking_only = Return undocking_counts
  /\ init_rows autonomy_cfg (log undocking_only) (build_version undocking_only)
       summary_init = Return undocking_rows_init
  /\ merge_run autonomy_cfg (build_version undocking_only) undocking_counts
       undocking_rows_init = Return undocking_rows
  /\ transition_rows autonomy_cfg (autonomy_row undocking_rows)
     = Return [transition_record "UNDOCKING_TO_DOCKING" (autonomy_row undocking_rows)]
  /\ transition_record "UNDOCKING_TO_DOCKING" (autonomy_row undocking_rows)
     = [CStr "UNDOCKING_TO_DOCKING"; CStr "run_17.nz.bin"; CStr "1.2.0-282";
        CStr EmptyString; CStr EmptyString; CStr EmptyString]
  /\ (transition_record "UNDOCKING_TO_DOCKING" (autonomy_row undocking_rows)
        ∈ [transition_record "UNDOCKING_TO_DOCKING" (autonomy_row undocking_rows)]
      <-> ge_one (count_for autonomy_cfg undocking_counts "UNDOCKING (sum)") = true
          /\ eq_zero (count_for autonomy_cfg undocking_counts "DOCKING") = true).
Proof.
  assert (Hinit : init_rows autonomy_cfg (log undocking_only)
                    (build_version undocking_only) summary_init
                  = Return undocking_rows_init) by (vm_compute; reflexivity).
  assert (Hmerge : merge_run autonomy_cfg (build_version undocking_only)
                     undocking_counts undocking_rows_init
                   = Return undocking_rows) by (vm_compute; reflexivity).
  assert (Hrows : transition_rows autonomy_cfg (autonomy_row undocking_rows)
                  = Return [transition_record "UNDOCKING_TO_DOCKING"
                              (autonomy_row undocking_rows)])
    by (vm_compute; reflexivity).
  split; [vm_compute; reflexivity|]. split; [exact Hinit|]. split; [exact Hmerge|].
  split; [exact Hrows|]. split; [vm_compute; reflexivity|].
  refine (transition_failure_iff autonomy_cfg (log undocking_only)
            (build_version undocking_only) summary_init undocking_rows_init
            undocking_counts undocking_rows _ "UNDOCKING_TO_DOCKING"
            "UNDOCKING (sum)" "DOCKING" _ _ _ _ _ Hinit Hmerge Hrows).
  - apply NoDup_singleton.
  - apply NoDup_singleton.
  - by left.
  - split; [reflexivity|]. exists 6%nat. split; [vm_compute; reflexivity | lia].
  - split; [reflexivity|]. exists 4%nat. split; [vm_compute; reflexivity | lia].
Defined.

(** C9 on the batch of that one run: its bucket holds UNDOCKING and has
    run count 0. *)
Example rollup_divides_by_zero_witness :
  ("count" ∉ AUTONOMY_CSV_HEADER autonomy_cfg)
  /\ for_each (process_bb_file float_of_literal autonomy_cfg false true)
       [undocking_only] batch_init = Return undocking_batch
  /\ analyze float_of_literal autonomy_cfg false undocking_only = Return undocking_counts
  /\ undocking_counts !! "UNDOCKING" = Some (VInt 1)
  /\ undocking_counts !! "CLEANING_START" = None
  /\ undocking_counts !! "SUSPENDED_CHARGING_START" = None
  /\ run_bucket undocking_only undocking_counts = ("OFF_BASE", Some "1.2.0-282")
  /\ rollup_bucket autonomy_cfg
       (fst (run_bucket undocking_only undocking_counts))
       (snd (run_bucket undocking_only undocking_counts))
       (bucket (autonomy_statistics (batch_totals undocking_batch))
          (fst (run_bucket undocking_only undocking_counts))
          (snd (run_bucket undocking_only undocking_counts)))
     = Raise ZeroDivisionError
  /\ raises (process_bb_files float_of_literal autonomy_cfg false true [undocking_only])
  /\ process_bb_files float_of_literal autonomy_cfg false true [undocking_only]
     = Raise ZeroDivisionError.
Proof.
  assert (Hcount : "count" ∉ AUTONOMY_CSV_HEADER autonomy_cfg).
  { intros H%list_elem_of_In. simpl in H. intuition discriminate. }
  assert (Hrun : for_each (process_bb_file float_of_literal autonomy_cfg false true)
                   [undocking_only] batch_init = Return undocking_batch)
    by (vm_compute; reflexivity).
  assert (Hec : analyze float_of_literal autonomy_cfg false undocking_only
                = Return undocking_counts) by (vm_compute; reflexivity).
  assert (Hcode : undocking_counts !! "UNDOCKING" = Some (VInt 1))
    by (vm_compute; reflexivity).
  assert (Hstart : undocking_counts !! "CLEANING_START" = None
                   /\ undocking_counts !! "SUSPENDED_CHARGING_START" = None)
    by (split; vm_compute; reflexivity).
  split; [exact Hcount|]. split; [exact Hrun|]. split; [exact Hec|].
  split; [exact Hcode|]. split; [exact (proj1 Hstart)|]. split; [exact (proj2 Hstart)|].
  split; [vm_compute; reflexivity|].
  assert (Hnone : forall f' ec',
             f' ∈ [undocking_only] ->
             analyze float_of_literal autonomy_cfg false f' = Return ec' ->
             run_bucket f' ec' = run_bucket undocking_only undocking_counts ->
             ec' !! "CLEANING_START" = None /\ ec' !! "SUSPENDED_CHARGING_START" = None).
  { intros f' ec' Hf' Hec' _. apply list_elem_of_singleton in Hf' as ->.
    rewrite Hec in Hec'. injection Hec' as <-. exact Hstart. }
  destruct (rollup_divides_by_zero float_of_literal autonomy_cfg false [undocking_only]
              undocking_batch undocking_only undocking_counts "UNDOCKING" (VInt 1)
              Hcount Hrun ltac:(by left) Hec Hcode ltac:(repeat constructor) eq_refl
              Hnone) as (Hbucket & Hraises & Hexact).
  split; [exact Hbucket|]. split; [exact Hraises|].
  apply Hexact. repeat constructor.
Defined.
(** ** The sensor pass: what every run of it guarantees *)











(** ** The pose pass: what every run of it guarantees *)

Section PosePassInvariants.

Variable py_float : string -> option Q.






End PosePassInvariants.
(** ** The line scan: undecodable lines and the timestamp list *)

Section LineScanExtras.

Variable py_float : string -> option Q.





End LineScanExtras.
(** ** The merge of one run: the summary row and the overall counts *)








(** ** The passes of one log and the batch *)

Section BatchExtras.

Variable py_float : string -> option Q.













End BatchExtras.
(** ** The batch: shape of the files, overall counts, missing columns *)







Section BatchShape.

Variable py_float : string -> option Q.


End BatchShape.



Section BatchCounts.

Variable py_float : string -> option Q.



End BatchCounts.
(** ** The rollup of a bucket that has a run count *)




(** ** The drop threshold and the build version *)














(** ** The crop of a map *)






(** ** The message searches *)















(** ** The properties on concrete inputs *)



















(** One marker pair on four lines that end in a newline: the window runs
    from the start line through the end line, and the empty piece after
    each newline inside the window is returned with them. *)
Example event_search_one_pair_example :
  event_search ["BEGIN"] ["END"]
    [Some ("a" +:+ String "010" EmptyString);
     Some ("x BEGIN" +:+ String "010" EmptyString);
     None;
     Some ("y END" +:+ String "010" EmptyString);
     Some ("z" +:+ String "010" EmptyString)]
  = Return ["x BEGIN"; EmptyString; "y END"].
Proof. reflexivity. Qed.

Example alerts_example :
  search_for_any_errors_alerts ["ERR"; "12"] [Some "ERR 12"; None; Some "ok"; Some "x 12"]
  = ["ERR 12"; "ERR 12"; "x 12"].
Proof. reflexivity. Qed.

